(** * upload_dicom_files.py: the archive-aware importer, embedded and verified

    The script walks its file arguments, unwraps archives, repairs the four
    identifying DICOM tags and posts every payload to an Orthanc server,
    keeping three counters and the set of studies already announced.

    The embedding follows the script function by function.  The script's
    globals become the [Session] record, the server and the console become
    fields of a [World], and every function of the script is a computation
    in a small state-and-exception monad over that world.  What the script
    borrows from libraries (pydicom, json, tarfile, zipfile, requests, os)
    is a field of [Env]: the theorems hold for every such environment. *)

From Stdlib Require Import Strings.Byte Strings.Ascii Strings.String.
From stdpp Require Import base option list gmap sets strings.

#[local] Set Warnings "-clear-no-such-hyp".

Local Open Scope string_scope.
Local Open Scope list_scope.
Local Open Scope nat_scope.

(** ** Data *)

(** A Python [bytes] object. *)
Definition bytes : Type := list byte.

#[global] Instance byte_eq_decision : EqDecision byte := byte_eq_dec.

(** A pydicom [Dataset], read through its keywords: [keyword in ds] is
    [is_Some (ds !! keyword)], [setattr ds keyword v] is an insertion. *)
Abbreviation Dataset := (gmap string string).

(** What [response.json()] can return.  Values are kept as their text; the
    arrays and objects the store answers with hold strings. *)
Inductive json : Type :=
  | JsonDict (d : gmap string string)
  | JsonList (l : list string).

(** A [requests.Response]: whether the status is 2xx, and the decoded body
    ([None] when the body is not JSON, where [response.json()] raises). *)
Record Response : Type := mkResponse {
  status_ok : bool;
  json_body : option json
}.

(** [TarInfo.type], as far as [isreg] tells the kinds apart. *)
Inductive tar_type : Type :=
  | REGTYPE | AREGTYPE | CONTTYPE | GNUTYPE_SPARSE
  | DIRTYPE | SYMTYPE | LNKTYPE | CHRTYPE | BLKTYPE | FIFOTYPE.

Record TarInfo : Type := mkTarInfo {
  tar_name : string;
  tar_kind : tar_type;
  tar_data : bytes          (* what [tar.extractfile(item).read()] gives *)
}.

Definition isreg (item : TarInfo) : bool :=
  match tar_kind item with
  | REGTYPE | AREGTYPE | CONTTYPE | GNUTYPE_SPARSE => true
  | _ => false
  end.

Record ZipInfo : Type := mkZipInfo {
  filename : string;
  file_size : nat;          (* the uncompressed size the archive records *)
  zip_data : bytes          (* what [zip.read(item.filename)] gives *)
}.

(** The mode string handed to [tarfile.open]. *)
Inductive tar_mode : Type := mode_r | mode_r_gz | mode_r_bz2.

(** The parsed command line ([args]).  [url] is the address of the store:
    the script sends every request there, and the model runs against that
    one store, the server of its world.  Two command lines are compared
    only where they name the same store. *)
Record Args : Type := mkArgs {
  url : string;
  force : bool;
  clear : bool;
  verbose : bool;
  ignore_errors : bool;
  files : list string
}.

(** The exceptions the script can die of. *)
Inductive exn : Type :=
  | FileNotFoundError (path : string)
  | InvalidDicomError
  | HTTPError
  | JSONDecodeError
  | KeyError (key : string)
  | TypeError
  | ReadError
  | BadZipFile
  | MissingFileOrDirectory (path : string).

(** The lines the script prints.  Numbers and JSON values stay structured:
    how Python renders them is not part of any property below. *)
Inductive line : Type :=
  | L_blank
  | L_uploading (name : string) (nbytes : nat)
  | L_uncompressing_tar (path : string)
  | L_uncompressing_zip (path : string)
  | L_not_valid_ignoring
  | L_error_uploading (body : json)
  | L_new_imported_study
  | L_orthanc_patient (id : string)
  | L_orthanc_study (id : string)
  | L_dicom_patient_id (v : string)
  | L_dicom_study_uid (v : string)
  | L_removing_content
  | L_studies_being_removed (n : nat)
  | L_now_empty
  | L_success
  | L_warning
  | L_count_dicom (n : nat)
  | L_count_studies (n : nat)
  | L_count_json (n : nat)
  | L_count_error (n : nat).

(** Everything observable from outside, in the order it happens. *)
Inductive event : Type :=
  | EvPost (body : bytes)               (* POST {url}/instances *)
  | EvGetTags (id : string)             (* GET {url}/instances/{id}/tags?short *)
  | EvGetStudies                        (* GET {url}/studies *)
  | EvDelete (study : string)           (* DELETE {url}/studies/{study} *)
  | EvPrint (l : line).

(** The script's globals. *)
Record Session : Type := mkSession {
  IMPORTED_STUDIES : gset string;
  COUNT_ERROR : nat;
  COUNT_DICOM : nat;
  COUNT_JSON : nat
}.

Definition fresh_session : Session :=
  {| IMPORTED_STUDIES := ∅; COUNT_ERROR := 0; COUNT_DICOM := 0; COUNT_JSON := 0 |}.

(** ** The libraries and the outside world *)

Record Env : Type := mkEnv {
  (* the file system *)
  read_file : string → option bytes;
  isfile : string → bool;
  isdir : string → bool;
  walk : string → list (string * list string);   (* os.walk: (root, files) *)
  (* pydicom *)
  dcmread : bytes → option Dataset;
  save_as : Dataset → bytes;
  (* bytes.decode and json.loads *)
  decode : bytes → option string;
  json_loads : string → option json;
  (* gzip and bz2: what reading the opened stream would give *)
  gzip_read : bytes → option bytes;
  bz2_read : bytes → option bytes;
  (* tarfile and zipfile *)
  tarfile_open : tar_mode → bytes → option (list TarInfo);
  zipfile_open : bytes → option (list ZipInfo);
  (* the Orthanc server behind requests *)
  Server : Type;
  post_instances : Server → bytes → Response * Server;
  get_instance_tags : Server → string → Response * Server;
  get_studies : Server → Response * Server;
  delete_study : Server → string → bool * Server
}.

(** ** Tag repair on a parsed dataset *)

Definition REQUIRED_TAGS_DEFAULT_VALUES : list (string * string) :=
  [ ("PatientID", "0");
    ("SOPInstanceUID", "0");
    ("SeriesInstanceUID", "0");
    ("StudyInstanceUID", "0") ].

(** One turn of the loop of [validate_dicom_tags]. *)
Definition set_if_missing (ds : Dataset) (item : string * string) : Dataset :=
  match ds !! item.1 with
  | Some _ => ds
  | None => <[item.1 := item.2]> ds
  end.

(** The loop of [validate_dicom_tags]. *)
Definition fill_required_tags (ds : Dataset) : Dataset :=
  foldl set_if_missing ds REQUIRED_TAGS_DEFAULT_VALUES.

(** ** The monad: a world, a result or an exception *)

Inductive outcome (A : Type) : Type :=
  | Returned (a : A)
  | Raised (e : exn).
Arguments Returned {A} a.
Arguments Raised {A} e.

(** The globals, the server and what has been observed so far. *)
Record WorldOf (S : Type) : Type := mkWorld {
  session : Session;
  server : S;
  log : list event
}.
Arguments mkWorld {S} session server log.
Arguments session {S} w.
Arguments server {S} w.
Arguments log {S} w.

(** The world of an environment holds that environment's server. *)
Abbreviation World E := (WorldOf (Server E)).

Section Monad.
Context {E : Env}.

Definition M (A : Type) : Type := World E → outcome A * World E.

Definition ret {A} (a : A) : M A := λ w, (Returned a, w).

Definition bind {A B} (m : M A) (k : A → M B) : M B :=
  λ w, match m w with
       | (Returned a, w') => k a w'
       | (Raised e, w') => (Raised e, w')
       end.

Definition raise {A} (e : exn) : M A := λ w, (Raised e, w).

Definition emit (ev : event) : M unit :=
  λ w, (Returned tt,
        {| session := session w; server := server w; log := log w ++ [ev] |}).

Definition print (l : line) : M unit := emit (EvPrint l).

Definition get_session : M Session := λ w, (Returned (session w), w).

Definition modify_session (f : Session → Session) : M unit :=
  λ w, (Returned tt,
        {| session := f (session w); server := server w; log := log w |}).

(** One request: it is logged, the server answers and moves on. *)
Definition request {A} (ev : event) (f : Server E → A * Server E) : M A :=
  λ w, let '(a, s') := f (server w) in
       (Returned a,
        {| session := session w; server := s'; log := log w ++ [ev] |}).

Definition when (b : bool) (m : M unit) : M unit := if b then m else ret tt.

(** A [for] loop whose body may raise. *)
Fixpoint for_each {A} (l : list A) (body : A → M unit) : M unit :=
  match l with
  | [] => ret tt
  | x :: l' => bind (body x) (λ _, for_each l' body)
  end.

(** [o] or, failing that, the exception [e]. *)
Definition or_raise {A} (o : option A) (e : exn) : M A :=
  match o with
  | Some a => ret a
  | None => raise e
  end.

End Monad.

Arguments M E A : clear implicits.

Declare Scope importer_scope.
Delimit Scope importer_scope with imp.
Notation "x <- m ;; k" := (bind m (λ x, k))
  (at level 100, m at next level, right associativity) : importer_scope.
Notation "m ;; k" := (bind m (λ _, k))
  (at level 100, right associativity) : importer_scope.
Local Open Scope importer_scope.

(** ** Path and name helpers (os.path, str) *)

(** [s.endswith(suffix)]. *)
Definition endswith (s suffix : string) : bool :=
  let n := String.length s in
  let k := String.length suffix in
  (k <=? n)%nat && String.eqb (String.substring (n - k) k s) suffix.

(** Cut [l] at its last [c]: what is before, and what starts at it. *)
Fixpoint rsplit (c : ascii) (l : list ascii) : option (list ascii * list ascii) :=
  match l with
  | [] => None
  | x :: l' =>
      match rsplit c l' with
      | Some (before, from) => Some (x :: before, from)
      | None => if Ascii.eqb x c then Some ([], x :: l') else None
      end
  end.

(** The last component of a path: what follows its last slash. *)
Definition basename (l : list ascii) : list ascii :=
  match rsplit "/" l with
  | Some (_, from) => tail from
  | None => l
  end.

(** [os.path.splitext(p)[1]]: from the last dot of the last component, unless
    only dots come before it there. *)
Definition splitext_ext (p : string) : string :=
  match rsplit "." (basename (list_ascii_of_string p)) with
  | Some (stem, ext) =>
      if existsb (λ a, negb (Ascii.eqb a ".")) stem
      then string_of_list_ascii ext
      else ""
  | None => ""
  end.

(** [os.path.join(root, name)]. *)
Definition path_join (root name : string) : string :=
  if String.prefix "/" name then name
  else if String.eqb root "" || endswith root "/" then root +:+ name
  else root +:+ "/" +:+ name.

(** ** The script *)

Definition incr_error (s : Session) : Session :=
  {| IMPORTED_STUDIES := IMPORTED_STUDIES s; COUNT_ERROR := S (COUNT_ERROR s);
     COUNT_DICOM := COUNT_DICOM s; COUNT_JSON := COUNT_JSON s |}.

Definition incr_dicom (s : Session) : Session :=
  {| IMPORTED_STUDIES := IMPORTED_STUDIES s; COUNT_ERROR := COUNT_ERROR s;
     COUNT_DICOM := S (COUNT_DICOM s); COUNT_JSON := COUNT_JSON s |}.

Definition incr_json (s : Session) : Session :=
  {| IMPORTED_STUDIES := IMPORTED_STUDIES s; COUNT_ERROR := COUNT_ERROR s;
     COUNT_DICOM := COUNT_DICOM s; COUNT_JSON := S (COUNT_JSON s) |}.

Definition add_study (study : string) (s : Session) : Session :=
  {| IMPORTED_STUDIES := {[study]} ∪ IMPORTED_STUDIES s;
     COUNT_ERROR := COUNT_ERROR s;
     COUNT_DICOM := COUNT_DICOM s; COUNT_JSON := COUNT_JSON s |}.

(** [tags[key] if key in tags else '(empty)'].  On an array [in] is
    membership, and indexing it with a string is a [TypeError]. *)
Definition tag_or_empty {E} (tags : json) (key : string) : M E string :=
  match tags with
  | JsonDict d => ret (default "(empty)" (d !! key))
  | JsonList l => if bool_decide (key ∈ l) then raise TypeError else ret "(empty)"
  end.

(** [for x in r.json()] and [len(r.json())]: the elements of an array, the
    keys of an object (in the order of the map). *)
Definition json_items (j : json) : list string :=
  match j with
  | JsonList l => l
  | JsonDict d => (map_to_list d).*1
  end.

Section Importer.
Context (E : Env) (args : Args).

Local Abbreviation M := (M E).

Definition is_json (content : bytes) : bool :=
  match decode E content with
  | Some text =>
      match json_loads E text with
      | Some _ => true
      | None => false
      end
  | None => false
  end.

(** [open(file_path, 'rb')], as every reader of a path starts. *)
Definition open_rb (file_path : string) : M bytes :=
  or_raise (read_file E file_path) (FileNotFoundError file_path).

Definition validate_dicom_tags (file_path : string) : M bytes :=
  content <- open_rb file_path ;;
  ds <- or_raise (dcmread E content) InvalidDicomError ;;
  ret (save_as E (fill_required_tags ds)).

(** [response.json()]. *)
Definition response_json (response : Response) : M json :=
  or_raise (json_body response) JSONDecodeError.

(** [response.raise_for_status()]. *)
Definition raise_for_status (response : Response) : M unit :=
  if status_ok response then ret tt else raise HTTPError.

(** [info[key]] on a dict. *)
Definition getitem (d : gmap string string) (key : string) : M string :=
  or_raise (d !! key) (KeyError key).

Definition upload_buffer (dicom : bytes) : M unit :=
  if is_json dicom then
    modify_session incr_json
  else
    response <- request (EvPost dicom) (λ srv, post_instances E srv dicom) ;;
    if negb (status_ok response) then
      modify_session incr_error ;;
      if ignore_errors args then
        when (verbose args) (print L_not_valid_ignoring)
      else
        body <- response_json response ;;
        print (L_error_uploading body)
    else
      info <- response_json response ;;
      modify_session incr_dicom ;;
      match info with
      | JsonList _ => ret tt
      | JsonDict info =>
          study <- getitem info "ParentStudy" ;;
          s <- get_session ;;
          if bool_decide (study ∈ IMPORTED_STUDIES s) then ret tt
          else
            modify_session (add_study study) ;;
            id <- getitem info "ID" ;;
            response_2 <- request (EvGetTags id)
                            (λ srv, get_instance_tags E srv id) ;;
            raise_for_status response_2 ;;
            tags <- response_json response_2 ;;
            print L_blank ;;
            print L_new_imported_study ;;
            patient <- getitem info "ParentPatient" ;;
            print (L_orthanc_patient patient) ;;
            study <- getitem info "ParentStudy" ;;
            print (L_orthanc_study study) ;;
            pid <- tag_or_empty tags "0010,0020" ;;
            print (L_dicom_patient_id pid) ;;
            uid <- tag_or_empty tags "0020,000d" ;;
            print (L_dicom_study_uid uid) ;;
            print L_blank
      end.

Definition upload_file (file_path : string) : M unit :=
  dicom <- validate_dicom_tags file_path ;;
  when (verbose args) (print (L_uploading file_path (length dicom))) ;;
  upload_buffer dicom.

(** [f], the opened stream, is never read. *)
Definition upload_bzip2 (file_path : string) : M unit :=
  _f <- open_rb file_path ;;
  dicom <- validate_dicom_tags file_path ;;
  when (verbose args) (print (L_uploading file_path (length dicom))) ;;
  upload_buffer dicom.

Definition upload_gzip (file_path : string) : M unit :=
  _f <- open_rb file_path ;;
  dicom <- validate_dicom_tags file_path ;;
  when (verbose args) (print (L_uploading file_path (length dicom))) ;;
  upload_buffer dicom.

(** The body of [for item in tar]. *)
Definition upload_tar_item (item : TarInfo) : M unit :=
  if isreg item then
    let dicom := tar_data item in
    when (verbose args) (print (L_uploading (tar_name item) (length dicom))) ;;
    upload_buffer dicom
  else ret tt.

Definition upload_tar (file_path : string) (decoder : tar_mode) : M unit :=
  when (verbose args) (print (L_uncompressing_tar file_path)) ;;
  content <- open_rb file_path ;;
  tar <- or_raise (tarfile_open E decoder content) ReadError ;;
  for_each tar upload_tar_item.

(** The body of [for item in zip.infolist()]. *)
Definition upload_zip_item (item : ZipInfo) : M unit :=
  if (0 <? file_size item)%nat then
    let dicom := zip_data item in
    when (verbose args) (print (L_uploading (filename item) (length dicom))) ;;
    upload_buffer dicom
  else ret tt.

Definition upload_zip (file_path : string) : M unit :=
  when (verbose args) (print (L_uncompressing_zip file_path)) ;;
  content <- open_rb file_path ;;
  zip <- or_raise (zipfile_open E content) BadZipFile ;;
  for_each zip upload_zip_item.

Definition decode_file (file_path : string) : M unit :=
  let extension := splitext_ext file_path in
  if endswith file_path ".tar.bz2" then upload_tar file_path mode_r_bz2
  else if endswith file_path ".tar.gz" then upload_tar file_path mode_r_gz
  else if String.eqb extension ".zip" then upload_zip file_path
  else if String.eqb extension ".tar" then upload_tar file_path mode_r
  else if String.eqb extension ".bz2" then upload_bzip2 file_path
  else if String.eqb extension ".gz" then upload_gzip file_path
  else upload_file file_path.

(** [if args.clear: ...]. *)
Definition clear_orthanc : M unit :=
  print L_removing_content ;;
  r <- request EvGetStudies (get_studies E) ;;
  raise_for_status r ;;
  studies <- response_json r ;;
  print (L_studies_being_removed (length (json_items studies))) ;;
  for_each (json_items studies) (λ study,
    ok <- request (EvDelete study) (λ srv, delete_study E srv study) ;;
    if ok : bool then ret tt else raise HTTPError) ;;
  print L_now_empty ;;
  print L_blank.

(** The body of [for path in args.files]. *)
Definition import_path (path : string) : M unit :=
  if isfile E path then decode_file path
  else if isdir E path then
    for_each (walk E path) (λ '(root, names),
      for_each names (λ name, decode_file (path_join root name)))
  else raise (MissingFileOrDirectory path).

Definition print_summary : M unit :=
  print L_blank ;;
  s <- get_session ;;
  (if (COUNT_ERROR s =? 0)%nat then print L_success else print L_warning) ;;
  print (L_count_dicom (COUNT_DICOM s)) ;;
  print (L_count_studies (size (IMPORTED_STUDIES s))) ;;
  print (L_count_json (COUNT_JSON s)) ;;
  print (L_count_error (COUNT_ERROR s)) ;;
  print L_blank.

(** The script from [if args.clear] to its last line. *)
Definition main : M unit :=
  when (clear args) clear_orthanc ;;
  for_each (files args) import_path ;;
  print_summary.

End Importer.

(** A run starts with the globals as the script initialises them. *)
Definition initial_world {E} (srv : Server E) : World E :=
  {| session := fresh_session; server := srv; log := [] |}.

(** ** A small concrete environment

    A stand-in for the libraries and for Orthanc, small enough to compute
    with: a line-oriented image format, stored gzip and bzip2 streams, a
    table of archives and a store that keeps the accepted datasets. *)

Module Demo.

Definition b (s : string) : bytes := list_byte_of_string s.

(** Cut a text at every [sep]. *)
Fixpoint split_on (sep : ascii) (s : string) : list string :=
  match s with
  | EmptyString => [""]
  | String c s' =>
      if Ascii.eqb c sep then "" :: split_on sep s'
      else match split_on sep s' with
           | [] => [String c ""]
           | piece :: pieces => String c piece :: pieces
           end
  end.

(** ["key=value"] as a pair. *)
Fixpoint key_value (s : string) : option (string * string) :=
  match s with
  | EmptyString => None
  | String c s' =>
      if Ascii.eqb c "=" then Some ("", s')
      else '(k, v) ← key_value s'; Some (String c k, v)
  end.

(** The image format: [DICM] and then [key=value;] for every element. *)
Definition demo_save_as (ds : Dataset) : bytes :=
  b ("DICM" +:+ foldr (λ '(k, v) acc, k +:+ "=" +:+ v +:+ ";" +:+ acc) ""
                  (map_to_list ds)).

Definition demo_dcmread (content : bytes) : option Dataset :=
  let text := string_of_list_byte content in
  if String.prefix "DICM" text then
    let fields := filter (λ piece, piece ≠ "")
                    (split_on ";" (String.substring 4 (String.length text - 4) text)) in
    list_to_map <$> mapM key_value fields
  else None.

(** Text is what holds no byte above 127. *)
Definition demo_decode (content : bytes) : option string :=
  if forallb (λ x, (Byte.to_nat x <? 128)%nat) content
  then Some (string_of_list_byte content) else None.

(** The JSON texts the demo needs: the empty object and the empty array. *)
Definition demo_json_loads (text : string) : option json :=
  if String.eqb text "{}" then Some (JsonDict ∅)
  else if String.eqb text "[]" then Some (JsonList [])
  else None.

(** A stored stream: a two-letter magic and then the data. *)
Definition stored (magic : string) (content : bytes) : option bytes :=
  let text := string_of_list_byte content in
  if String.prefix magic text
  then Some (b (String.substring 2 (String.length text - 2) text))
  else None.

Definition image_without_ids : bytes := b "DICM".
Definition image_with_ids : bytes :=
  b "DICMPatientID=P1;SOPInstanceUID=1.1;SeriesInstanceUID=1;StudyInstanceUID=S1;".
Definition second_image : bytes :=
  b "DICMPatientID=P1;SOPInstanceUID=1.2;SeriesInstanceUID=1;StudyInstanceUID=S1;".

Definition tar_entries : list TarInfo :=
  [ {| tar_name := "study"; tar_kind := DIRTYPE; tar_data := [] |};
    {| tar_name := "study/a.dcm"; tar_kind := REGTYPE; tar_data := image_without_ids |};
    {| tar_name := "study/empty"; tar_kind := REGTYPE; tar_data := [] |};
    {| tar_name := "study/link"; tar_kind := SYMTYPE; tar_data := [] |} ].

Definition zip_entries : list ZipInfo :=
  [ {| filename := "study/"; file_size := 0; zip_data := [] |};
    {| filename := "study/empty.dcm"; file_size := 0; zip_data := [] |} ].

(** The archives the demo libraries can open. *)
Definition demo_tarfile_open (mode : tar_mode) (content : bytes)
  : option (list TarInfo) :=
  match mode with
  | mode_r => if bool_decide (content = b "TAR1") then Some tar_entries else None
  | _ => None
  end.

Definition demo_zipfile_open (content : bytes) : option (list ZipInfo) :=
  if bool_decide (content = b "ZIP1") then Some zip_entries else None.

Definition disk : list (string * bytes) :=
  [ ("scan.dcm.gz", b "GZ" ++ image_with_ids);
    ("study.tar", b "TAR1");
    ("study.zip", b "ZIP1");
    ("broken.tar", b "not a tar archive");
    ("bare.dcm", image_without_ids);
    ("good.dcm", image_with_ids) ].

Definition demo_read_file (path : string) : option bytes :=
  (λ found, found.2.2) <$> list_find (λ entry : string * bytes, entry.1 = path) disk.

(** The store keeps the datasets it accepted.  It accepts what parses and
    carries the four identifying tags. *)
Definition orthanc_post (stored : list Dataset) (body : bytes)
  : Response * list Dataset :=
  match demo_dcmread body with
  | Some ds =>
      match ds !! "PatientID", ds !! "StudyInstanceUID",
            ds !! "SeriesInstanceUID", ds !! "SOPInstanceUID" with
      | Some patient, Some study, Some _, Some sop =>
          ({| status_ok := true;
              json_body := Some (JsonDict (list_to_map
                [("ID", sop); ("ParentStudy", study); ("ParentPatient", patient)])) |},
           stored ++ [ds])
      | _, _, _, _ =>
          ({| status_ok := false;
              json_body := Some (JsonDict {[ "Message" := "Bad file format" ]}) |},
           stored)
      end
  | None =>
      ({| status_ok := false;
          json_body := Some (JsonDict {[ "Message" := "Bad file format" ]}) |},
       stored)
  end.

Definition orthanc_tags (stored : list Dataset) (id : string)
  : Response * list Dataset :=
  match list_find (λ ds : Dataset, ds !! "SOPInstanceUID" = Some id) stored with
  | Some (_, ds) =>
      ({| status_ok := true;
          json_body := Some (JsonDict (list_to_map
            (omap (λ '(tag, keyword), pair tag <$> ds !! keyword)
               [("0010,0020", "PatientID"); ("0020,000d", "StudyInstanceUID")]))) |},
       stored)
  | None => ({| status_ok := false; json_body := None |}, stored)
  end.

Definition study_of (ds : Dataset) : string := default "" (ds !! "StudyInstanceUID").

Definition orthanc_studies (stored : list Dataset) : Response * list Dataset :=
  ({| status_ok := true;
      json_body := Some (JsonList (remove_dups (study_of <$> stored))) |},
   stored).

Definition orthanc_delete (stored : list Dataset) (study : string)
  : bool * list Dataset :=
  (bool_decide (study ∈ study_of <$> stored),
   filter (λ ds, study_of ds ≠ study) stored).

Definition env : Env :=
  {| read_file := demo_read_file;
     isfile := λ path, bool_decide (is_Some (demo_read_file path));
     isdir := λ _, false;
     walk := λ _, [];
     dcmread := demo_dcmread;
     save_as := demo_save_as;
     decode := demo_decode;
     json_loads := demo_json_loads;
     gzip_read := stored "GZ";
     bz2_read := stored "BZ";
     tarfile_open := demo_tarfile_open;
     zipfile_open := demo_zipfile_open;
     Server := list Dataset;
     post_instances := orthanc_post;
     get_instance_tags := orthanc_tags;
     get_studies := orthanc_studies;
     delete_study := orthanc_delete |}.

Definition quiet (paths : list string) : Args :=
  {| url := "http://localhost:8042"; force := false; clear := false;
     verbose := false; ignore_errors := false; files := paths |}.

Definition empty_store : World env := initial_world (E := env) [].

(** The store and the globals once [good.dcm] has been imported. *)
Definition one_study_imported : World env :=
  (upload_buffer env (quiet []) image_with_ids empty_store).2.

(** The same once a second instance of that study has been posted. *)
Definition second_answer : Response * list Dataset :=
  orthanc_post (server one_study_imported) second_image.

Definition two_instances_imported : World env :=
  (upload_buffer env (quiet []) second_image one_study_imported).2.

(** What the store answers to the instances of study [S1]. *)
Definition info_of (sop : string) : gmap string string :=
  list_to_map [("ID", sop); ("ParentStudy", "S1"); ("ParentPatient", "P1")].

(** Ignore-errors mode. *)
Definition lenient (paths : list string) : Args :=
  {| url := "http://localhost:8042"; force := false; clear := false;
     verbose := false; ignore_errors := true; files := paths |}.

(** [--clear], with or without [--force], and nothing to import. *)
Definition clearing (forced : bool) : Args :=
  {| url := "http://localhost:8042"; force := forced; clear := true;
     verbose := false; ignore_errors := false; files := [] |}.

Definition instance_of (study sop : string) : Dataset :=
  list_to_map [("PatientID", "P1"); ("SOPInstanceUID", sop);
               ("SeriesInstanceUID", "1"); ("StudyInstanceUID", study)].

(** A store that holds two studies, before the script has done anything. *)
Definition two_studies_stored : World env :=
  initial_world (E := env) [instance_of "S1" "1.1"; instance_of "S2" "2.1"].

(** The globals and the store once [good.dcm] went through [decode_file]. *)
Definition good_file_imported : World env :=
  (decode_file env (lenient []) "good.dcm" empty_store).2.

End Demo.


(** ** Vocabulary of the properties *)

(** The four identity fields, by name: what a repaired image must carry,
    whatever table the script holds. *)
Definition required_keywords : list string :=
  ["PatientID"; "SOPInstanceUID"; "SeriesInstanceUID"; "StudyInstanceUID"].

Definition count_events (p : event → bool) (l : list event) : nat :=
  length (List.filter p l).

Definition is_post (ev : event) : bool :=
  match ev with EvPost _ => true | _ => false end.

Definition is_tag_read (ev : event) : bool :=
  match ev with EvGetTags _ => true | _ => false end.

Definition is_delete (ev : event) : bool :=
  match ev with EvDelete _ => true | _ => false end.

(** The line of the "new study" block that names the study. *)
Definition is_study_block (study : string) (ev : event) : bool :=
  match ev with
  | EvPrint (L_orthanc_study s) => bool_decide (s = study)
  | _ => false
  end.

Definition posts (l : list event) : nat := count_events is_post l.
Definition tag_reads (l : list event) : nat := count_events is_tag_read l.
Definition study_blocks (study : string) (l : list event) : nat :=
  count_events (is_study_block study) l.

(** How often the upload sink has run so far: every call of
    [upload_buffer] either counts a JSON file or posts once. *)
Definition sink_calls {E} (w : World E) : nat :=
  COUNT_JSON (session w) + posts (log w).

(** [ZipInfo.is_dir()]: the name of a directory member ends with a slash. *)
Definition is_dir (item : ZipInfo) : bool := endswith (filename item) "/".

(** A specification of a computation: from a world satisfying [P] it
    returns into [Q], or raises into [X]. *)
Definition triple {E A} (P : World E → Prop) (m : M E A)
    (Q : A → World E → Prop) (X : World E → Prop) : Prop :=
  ∀ w, P w →
    match m w with
    | (Returned a, w') => Q a w'
    | (Raised _, w') => X w'
    end.

(** Events that neither announce a study nor read an instance's tags. *)
Definition quiet_event (ev : event) : bool :=
  match ev with
  | EvGetTags _ | EvPrint (L_orthanc_study _) => false
  | _ => true
  end.

(** A property of worlds that only the upload sink can change: it looks at
    the session, and in the log only at tag reads and study lines. *)
Definition sink_owned {E} (I : World E → Prop) : Prop :=
  ∀ w w' : World E,
    session w' = session w →
    (log w' = log w ∨ ∃ ev, quiet_event ev = true ∧ log w' = log w ++ [ev]) →
    I w → I w'.

(** The session never announces a study twice and reads tags once a study. *)
Definition announced_once {E} (w : World E) : Prop :=
  (∀ study, study_blocks study (log w) =
            if bool_decide (study ∈ IMPORTED_STUDIES (session w)) then 1 else 0)
  ∧ tag_reads (log w) = size (IMPORTED_STUDIES (session w)).

Definition announced_at_most_once {E} (w : World E) : Prop :=
  (∀ study, (study_blocks study (log w) ≤
            if bool_decide (study ∈ IMPORTED_STUDIES (session w)) then 1 else 0)%nat)
  ∧ (tag_reads (log w) ≤ size (IMPORTED_STUDIES (session w)))%nat.

Definition studies_within_imports {E} (w : World E) : Prop :=
  (size (IMPORTED_STUDIES (session w)) ≤ COUNT_DICOM (session w))%nat.

(** A regular member of a zip archive: any member that is not a directory. *)
Definition zip_isreg (item : ZipInfo) : bool := negb (is_dir item).

(** The members [upload_zip] reads. *)
Definition zip_nonempty (item : ZipInfo) : bool := 0 <? file_size item.


(** The same environment with other stream decoders. *)
Definition with_streams (E : Env) (gz bz : bytes → option bytes) : Env :=
  {| read_file := read_file E; isfile := isfile E; isdir := isdir E;
     walk := walk E; dcmread := dcmread E; save_as := save_as E;
     decode := decode E; json_loads := json_loads E;
     gzip_read := gz; bz2_read := bz;
     tarfile_open := tarfile_open E; zipfile_open := zipfile_open E;
     Server := Server E; post_instances := post_instances E;
     get_instance_tags := get_instance_tags E; get_studies := get_studies E;
     delete_study := delete_study E |}.

(** The same environment with another pydicom. *)
Definition with_pydicom (E : Env) (read : bytes → option Dataset)
    (save : Dataset → bytes) : Env :=
  {| read_file := read_file E; isfile := isfile E; isdir := isdir E;
     walk := walk E; dcmread := read; save_as := save;
     decode := decode E; json_loads := json_loads E;
     gzip_read := gzip_read E; bz2_read := bz2_read E;
     tarfile_open := tarfile_open E; zipfile_open := zipfile_open E;
     Server := Server E; post_instances := post_instances E;
     get_instance_tags := get_instance_tags E; get_studies := get_studies E;
     delete_study := delete_study E |}.

(** The bodies of the POSTs in a log, in order. *)
Definition posted (l : list event) : list bytes :=
  omap (λ ev, match ev with EvPost body => Some body | _ => None end) l.

(** What reaches the server, as opposed to the console. *)
Definition is_request (ev : event) : bool :=
  match ev with EvPrint _ => false | _ => true end.

Definition requests (l : list event) : list event := List.filter is_request l.

(** The payloads of a list that the sink posts: those that are not JSON. *)
Definition not_json (E : Env) (payloads : list bytes) : list bytes :=
  List.filter (λ dicom, negb (is_json E dicom)) payloads.

Definition json_among (E : Env) (payloads : list bytes) : nat :=
  length (List.filter (is_json E) payloads).

(** The files [os.walk] finds under a directory, joined to their roots, in
    the order the two nested loops of the script visit them. *)
Definition files_under (E : Env) (dir : string) : list string :=
  flat_map (λ '(root, names), path_join root <$> names) (walk E dir).

(** No counter went down and no study was forgotten. *)
Definition session_grew (s s' : Session) : Prop :=
  IMPORTED_STUDIES s ⊆ IMPORTED_STUDIES s'
  ∧ COUNT_ERROR s ≤ COUNT_ERROR s'
  ∧ COUNT_DICOM s ≤ COUNT_DICOM s'
  ∧ COUNT_JSON s ≤ COUNT_JSON s'.

(** Two worlds that differ in what was printed only. *)
Definition same_but_console {E} (w w' : World E) : Prop :=
  session w = session w' ∧ server w = server w'
  ∧ requests (log w) = requests (log w').

(** Two computations that, from worlds that differ in the console only, end
    the same way in worlds that differ in the console only. *)
Definition console_only {E A} (m m' : M E A) : Prop :=
  ∀ w w', same_but_console w w' →
    (m w).1 = (m' w').1 ∧ same_but_console (m w).2 (m' w').2.

(** [s[-1]], when there is one. *)
Fixpoint last_char (s : string) : option ascii :=
  match s with
  | EmptyString => None
  | String c s' =>
      match last_char s' with
      | Some c' => Some c'
      | None => Some c
      end
  end.

(** ** A server that follows a script

    The libraries of [Demo], with a server that answers every request with
    the next response of a list, and with a failure once the list is
    used up. *)

Module Scripted.

Definition unavailable : Response := {| status_ok := false; json_body := None |}.

Definition next (answers : list Response) : Response * list Response :=
  match answers with
  | answer :: rest => (answer, rest)
  | [] => (unavailable, [])
  end.

Definition env : Env :=
  {| read_file := read_file Demo.env;
     isfile := isfile Demo.env;
     isdir := isdir Demo.env;
     walk := walk Demo.env;
     dcmread := dcmread Demo.env;
     save_as := save_as Demo.env;
     decode := decode Demo.env;
     json_loads := json_loads Demo.env;
     gzip_read := gzip_read Demo.env;
     bz2_read := bz2_read Demo.env;
     tarfile_open := tarfile_open Demo.env;
     zipfile_open := zipfile_open Demo.env;
     Server := list Response;
     post_instances := λ answers _, next answers;
     get_instance_tags := λ answers _, next answers;
     get_studies := next;
     delete_study := λ answers _, (status_ok (next answers).1, (next answers).2) |}.

Definition accepted (body : json) : Response :=
  {| status_ok := true; json_body := Some body |}.

Definition rejected (body : json) : Response :=
  {| status_ok := false; json_body := Some body |}.

(** An answer to a POST that names study [S1], and variants that lack a key. *)
Definition complete_info : gmap string string :=
  list_to_map [("ID", "i1"); ("ParentStudy", "S1"); ("ParentPatient", "p1")].

Definition info_without_study : gmap string string :=
  list_to_map [("ID", "i1"); ("ParentPatient", "p1")].

Definition info_without_id : gmap string string :=
  list_to_map [("ParentStudy", "S1"); ("ParentPatient", "p1")].

(** Tags that hold the patient but not the study. *)
Definition patient_only : gmap string string := {[ "0010,0020" := "P1" ]}.

Definition start (answers : list Response) : World env :=
  initial_world (E := env) answers.

End Scripted.

(** ** A directory to walk

    The libraries and the store of [Demo], with a directory [inbox] that
    holds an image, and a subdirectory with an image and a JSON file. *)

Module Tree.

Definition disk : list (string * bytes) :=
  [ ("inbox/a.dcm", Demo.image_with_ids);
    ("inbox/sub/b.dcm", Demo.second_image);
    ("inbox/sub/notes.json", Demo.b "{}") ].

Definition tree_read_file (path : string) : option bytes :=
  (λ found, found.2.2) <$> list_find (λ entry : string * bytes, entry.1 = path) disk.

Definition tree_walk (path : string) : list (string * list string) :=
  if String.eqb path "inbox"
  then [("inbox", ["a.dcm"]); ("inbox/sub", ["b.dcm"; "notes.json"])]
  else [].

Definition env : Env :=
  {| read_file := tree_read_file;
     isfile := λ path, bool_decide (is_Some (tree_read_file path));
     isdir := λ path, String.eqb path "inbox" || String.eqb path "inbox/sub";
     walk := tree_walk;
     dcmread := dcmread Demo.env;
     save_as := save_as Demo.env;
     decode := decode Demo.env;
     json_loads := json_loads Demo.env;
     gzip_read := gzip_read Demo.env;
     bz2_read := bz2_read Demo.env;
     tarfile_open := tarfile_open Demo.env;
     zipfile_open := zipfile_open Demo.env;
     Server := Server Demo.env;
     post_instances := post_instances Demo.env;
     get_instance_tags := get_instance_tags Demo.env;
     get_studies := get_studies Demo.env;
     delete_study := delete_study Demo.env |}.

Definition empty_store : World env := initial_world (E := env) [].

End Tree.

(** ** An image with some of the identity fields

    The libraries and the store of [Demo], with one more file: an image
    that names its patient and its study and nothing else. *)

Module Partial.

Definition image : bytes := Demo.b "DICMPatientID=P7;StudyInstanceUID=S7;".

Definition dataset : Dataset :=
  list_to_map [("PatientID", "P7"); ("StudyInstanceUID", "S7")].

Definition partial_read_file (path : string) : option bytes :=
  if String.eqb path "partial.dcm" then Some image else read_file Demo.env path.

Definition env : Env :=
  {| read_file := partial_read_file;
     isfile := λ path, bool_decide (is_Some (partial_read_file path));
     isdir := isdir Demo.env;
     walk := walk Demo.env;
     dcmread := dcmread Demo.env;
     save_as := save_as Demo.env;
     decode := decode Demo.env;
     json_loads := json_loads Demo.env;
     gzip_read := gzip_read Demo.env;
     bz2_read := bz2_read Demo.env;
     tarfile_open := tarfile_open Demo.env;
     zipfile_open := zipfile_open Demo.env;
     Server := Server Demo.env;
     post_instances := post_instances Demo.env;
     get_instance_tags := get_instance_tags Demo.env;
     get_studies := get_studies Demo.env;
     delete_study := delete_study Demo.env |}.

Definition empty_store : World env := initial_world (E := env) [].

End Partial.

(** * Properties *)

(** ** Tag repair *)

Lemma set_if_missing_lookup (ds : Dataset) (item : string * string) (k : string) :
  set_if_missing ds item !! k =
  match ds !! k with
  | Some v => Some v
  | None => if bool_decide (k = item.1) then Some item.2 else None
  end.
Proof.
  unfold set_if_missing.
  destruct (ds !! item.1) as [v0|] eqn:Hitem.
  - destruct (ds !! k) eqn:Hk; [done|].
    case_bool_decide; [congruence | done].
  - rewrite lookup_insert. case_decide as Heq.
    + subst k. rewrite Hitem. by rewrite bool_decide_eq_true_2.
    + destruct (ds !! k); [done|].
      by rewrite bool_decide_eq_false_2.
Qed.

Lemma fill_required_tags_lookup (ds : Dataset) (k : string) :
  fill_required_tags ds !! k =
  match ds !! k with
  | Some v => Some v
  | None => if bool_decide (k ∈ required_keywords) then Some "0" else None
  end.
Proof.
  unfold fill_required_tags, REQUIRED_TAGS_DEFAULT_VALUES. cbn [foldl].
  rewrite !set_if_missing_lookup. cbn [fst snd].
  destruct (ds !! k) as [v|]; [done|].
  unfold required_keywords.
  repeat case_bool_decide; try done;
    rewrite ?elem_of_cons, ?elem_of_nil in *; naive_solver.
Qed.

(** The repaired dataset is complete. *)
Lemma fill_required_tags_complete (ds : Dataset) (k : string) :
  k ∈ required_keywords → is_Some (fill_required_tags ds !! k).
Proof.
  intros Hk. rewrite fill_required_tags_lookup.
  destruct (ds !! k); [eauto|]. rewrite bool_decide_eq_true_2; eauto.
Qed.

(** X2.  Repairing twice is repairing once: a repaired dataset is
    complete, and tag repair leaves it as it is. *)
Lemma fill_required_tags_idempotent (ds : Dataset) :
  fill_required_tags (fill_required_tags ds) = fill_required_tags ds.
Proof.
  apply map_eq. intros k. rewrite (fill_required_tags_lookup (fill_required_tags ds)).
  destruct (fill_required_tags ds !! k) eqn:Hk; [done|].
  rewrite fill_required_tags_lookup in Hk.
  destruct (ds !! k); [done|]. by case_bool_decide.
Qed.

(** C3.  Tag repair of a file that parses as an image returns the
    serialisation of a dataset that carries all four identity fields
    (PatientID, SOPInstanceUID, SeriesInstanceUID, StudyInstanceUID): every
    field the image had keeps its value, an identity field it lacked is
    ["0"], and nothing else appears.  The world is left as it was. *)
Theorem validate_dicom_tags_repairs (E : Env) (file_path : string)
    (content : bytes) (ds : Dataset) (w : World E) :
  read_file E file_path = Some content →
  dcmread E content = Some ds →
  ∃ repaired : Dataset,
    validate_dicom_tags E file_path w = (Returned (save_as E repaired), w)
    ∧ (∀ k, k ∈ required_keywords → is_Some (repaired !! k))
    ∧ (∀ k v, ds !! k = Some v → repaired !! k = Some v)
    ∧ (∀ k, k ∈ required_keywords → ds !! k = None → repaired !! k = Some "0")
    ∧ (∀ k, k ∉ required_keywords → repaired !! k = ds !! k).
Proof.
  intros Hread Hparse. exists (fill_required_tags ds). split_and!.
  - unfold validate_dicom_tags, open_rb, bind, or_raise, ret.
    by rewrite Hread, Hparse.
  - apply fill_required_tags_complete.
  - intros k v Hk. by rewrite fill_required_tags_lookup, Hk.
  - intros k Hreq Hk. rewrite fill_required_tags_lookup, Hk.
    by rewrite bool_decide_eq_true_2.
  - intros k Hreq. rewrite fill_required_tags_lookup.
    destruct (ds !! k); [done|]. by rewrite bool_decide_eq_false_2.
Qed.

Lemma validate_dicom_tags_repairs_witness :
  ∃ repaired : Dataset,
    validate_dicom_tags Partial.env "partial.dcm" Partial.empty_store
      = (Returned (save_as Partial.env repaired), Partial.empty_store)
    ∧ (∀ k, k ∈ required_keywords → is_Some (repaired !! k))
    ∧ (∀ k v, Partial.dataset !! k = Some v → repaired !! k = Some v)
    ∧ (∀ k, k ∈ required_keywords → Partial.dataset !! k = None →
            repaired !! k = Some "0")
    ∧ (∀ k, k ∉ required_keywords → repaired !! k = Partial.dataset !! k).
Proof.
  apply (validate_dicom_tags_repairs Partial.env "partial.dcm" Partial.image
           Partial.dataset);
    vm_compute; reflexivity.
Defined.

(** ** The upload sink *)

Ltac unfold_monad :=
  unfold bind, ret, raise, or_raise, when, print, emit, request,
    modify_session, get_session, response_json, raise_for_status,
    getitem, tag_or_empty in *.

(** Walk through every path of a computation. *)
Ltac walk_paths :=
  repeat first
    [ progress unfold_monad
    | progress cbn [fst snd session server log IMPORTED_STUDIES COUNT_ERROR
                    COUNT_DICOM COUNT_JSON incr_error incr_dicom incr_json
                    add_study negb] in *
    | progress simplify_eq
    | case_match ].

Lemma is_json_spec (E : Env) (content : bytes) :
  is_json E content = true ↔
  ∃ text value, decode E content = Some text ∧ json_loads E text = Some value.
Proof.
  unfold is_json. split.
  - repeat case_match; naive_solver.
  - intros (text & value & -> & ->). done.
Qed.

(** C7.  A payload the classifier takes for JSON is counted as skipped and
    nothing else happens: the call returns, no request is sent (the log and
    the server are as before), the other counters and the set of seen
    studies are unchanged. *)
Theorem upload_buffer_skips_json (E : Env) (args : Args) (dicom : bytes)
    (w : World E) :
  is_json E dicom = true →
  ∃ w', upload_buffer E args dicom w = (Returned tt, w')
    ∧ COUNT_JSON (session w') = S (COUNT_JSON (session w))
    ∧ COUNT_DICOM (session w') = COUNT_DICOM (session w)
    ∧ COUNT_ERROR (session w') = COUNT_ERROR (session w)
    ∧ IMPORTED_STUDIES (session w') = IMPORTED_STUDIES (session w)
    ∧ log w' = log w
    ∧ server w' = server w.
Proof.
  intros Hjson. unfold upload_buffer. rewrite Hjson.
  eexists. split; [reflexivity|]. by cbn.
Qed.

Lemma upload_buffer_skips_json_witness :
  ∃ w', upload_buffer Demo.env (Demo.quiet []) (Demo.b "{}") Demo.empty_store
          = (Returned tt, w')
    ∧ COUNT_JSON (session w') = 1
    ∧ COUNT_DICOM (session w') = 0
    ∧ COUNT_ERROR (session w') = 0
    ∧ IMPORTED_STUDIES (session w') = ∅
    ∧ log w' = []
    ∧ server w' = [].
Proof.
  apply (upload_buffer_skips_json Demo.env (Demo.quiet []) (Demo.b "{}")
           Demo.empty_store).
  reflexivity.
Defined.

(** A rejection the script gets through.  When the store answers the POST
    with a status that is not 2xx, and with a JSON error body where the
    script is about to print it, the call returns: the error counter went
    up by one, the other counters and the seen studies are unchanged, and
    what was logged after the POST is the error body when ignore-errors is
    off, and the short notice (in verbose mode) or nothing when it is on. *)
Theorem upload_buffer_rejected (E : Env) (args : Args) (dicom : bytes)
    (w : World E) (response : Response) (srv' : Server E) :
  is_json E dicom = false →
  post_instances E (server w) dicom = (response, srv') →
  status_ok response = false →
  (ignore_errors args = false → is_Some (json_body response)) →
  ∃ w', upload_buffer E args dicom w = (Returned tt, w')
    ∧ COUNT_ERROR (session w') = S (COUNT_ERROR (session w))
    ∧ COUNT_DICOM (session w') = COUNT_DICOM (session w)
    ∧ COUNT_JSON (session w') = COUNT_JSON (session w)
    ∧ IMPORTED_STUDIES (session w') = IMPORTED_STUDIES (session w)
    ∧ server w' = srv'
    ∧ log w' = log w ++ EvPost dicom ::
        (if ignore_errors args
         then if verbose args then [EvPrint L_not_valid_ignoring] else []
         else match json_body response with
              | Some body => [EvPrint (L_error_uploading body)]
              | None => []
              end).
Proof.
  intros Hjson Hpost Hstatus Hbody.
  unfold upload_buffer. rewrite Hjson.
  unfold bind at 1. unfold request. rewrite Hpost, Hstatus. cbn [negb].
  destruct (ignore_errors args).
  - destruct (verbose args); eexists; (split; [reflexivity|]);
      cbn; rewrite <- ?(assoc_L (++)); done.
  - destruct Hbody as [body Hbody]; [done|].
    unfold_monad. cbn. rewrite Hbody.
    eexists; (split; [reflexivity|]); cbn; rewrite <- ?(assoc_L (++)); done.
Qed.

Lemma upload_buffer_rejected_witness :
  ∃ w', upload_buffer Demo.env (Demo.quiet []) Demo.image_without_ids
          Demo.empty_store = (Returned tt, w')
    ∧ COUNT_ERROR (session w') = 1
    ∧ COUNT_DICOM (session w') = 0
    ∧ COUNT_JSON (session w') = 0
    ∧ IMPORTED_STUDIES (session w') = ∅
    ∧ server w' = []
    ∧ log w' = [EvPost Demo.image_without_ids;
                EvPrint (L_error_uploading
                           (JsonDict {[ "Message" := "Bad file format" ]}))].
Proof.
  apply (upload_buffer_rejected Demo.env (Demo.quiet []) Demo.image_without_ids
           Demo.empty_store
           {| status_ok := false;
              json_body := Some (JsonDict {[ "Message" := "Bad file format" ]}) |}
           []).
  - reflexivity.
  - reflexivity.
  - reflexivity.
  - intros _. cbn. eauto.
Defined.

(** The other rejections: with ignore-errors off, a rejection whose body
    is not JSON is counted and then kills the call, at [response.json()]
    in the line that prints the error. *)
Lemma upload_buffer_rejected_without_body (E : Env) (args : Args)
    (dicom : bytes) (w : World E) (response : Response) (srv' : Server E) :
  is_json E dicom = false →
  post_instances E (server w) dicom = (response, srv') →
  status_ok response = false →
  ignore_errors args = false →
  json_body response = None →
  upload_buffer E args dicom w
  = (Raised JSONDecodeError,
     {| session := incr_error (session w); server := srv';
        log := log w ++ [EvPost dicom] |}).
Proof.
  intros Hjson Hpost Hstatus Hstrict Hbody.
  unfold upload_buffer. rewrite Hjson.
  unfold bind at 1. unfold request. rewrite Hpost, Hstatus, Hstrict. cbn [negb].
  unfold_monad. cbn. by rewrite Hbody.
Qed.

(** C8.  A store that answers the POST with a status that is not 2xx and a
    body that is not JSON, ignore-errors mode being off: the error is
    counted, and then the run dies of [JSONDecodeError] where the script
    prints the error body.  The second argument is never posted and no
    summary is printed.  In ignore-errors mode the same run goes on to
    the second argument and returns. *)
Theorem rejection_without_json_body_kills_the_run :
  ignore_errors (Demo.quiet ["good.dcm"; "bare.dcm"]) = false
  ∧ Scripted.next [] = ({| status_ok := false; json_body := None |}, [])
  ∧ main Scripted.env (Demo.quiet ["good.dcm"; "bare.dcm"]) (Scripted.start [])
    = (Raised JSONDecodeError,
       {| session := {| IMPORTED_STUDIES := ∅; COUNT_ERROR := 1;
                        COUNT_DICOM := 0; COUNT_JSON := 0 |};
          server := [];
          log := [EvPost (save_as Demo.env
                            (fill_required_tags (Demo.instance_of "S1" "1.1")))] |})
  ∧ (main Scripted.env (Demo.lenient ["good.dcm"; "bare.dcm"])
       (Scripted.start [])).1 = Returned tt
  ∧ posts (log (main Scripted.env (Demo.lenient ["good.dcm"; "bare.dcm"])
                  (Scripted.start [])).2) = 2
  ∧ COUNT_ERROR (session (main Scripted.env (Demo.lenient ["good.dcm"; "bare.dcm"])
                            (Scripted.start [])).2) = 2.
Proof. vm_compute. repeat split. Qed.

Lemma count_events_app (p : event → bool) (l1 l2 : list event) :
  count_events p (l1 ++ l2) = count_events p l1 + count_events p l2.
Proof. unfold count_events. by rewrite List.filter_app, length_app. Qed.

Lemma count_events_snoc (p : event → bool) (l : list event) (ev : event) :
  count_events p (l ++ [ev]) = count_events p l + (if p ev then 1 else 0).
Proof. rewrite count_events_app. unfold count_events. cbn. by destruct (p ev). Qed.

Lemma study_blocks_quiet (study : string) (l : list event) (ev : event) :
  quiet_event ev = true → study_blocks study (l ++ [ev]) = study_blocks study l.
Proof.
  intros Hq. unfold study_blocks. rewrite count_events_snoc.
  destruct ev as [| | | |[]]; cbn in *; first [lia | done].
Qed.

Lemma tag_reads_quiet (l : list event) (ev : event) :
  quiet_event ev = true → tag_reads (l ++ [ev]) = tag_reads l.
Proof.
  intros Hq. unfold tag_reads. rewrite count_events_snoc.
  destruct ev; cbn in *; first [lia | done].
Qed.

Lemma announced_once_owned (E : Env) : sink_owned (@announced_once E).
Proof.
  intros w w' Hs Hlog [Hblocks Hreads]. unfold announced_once. rewrite Hs.
  destruct Hlog as [-> | (ev & Hq & ->)]; [done|].
  split.
  - intros study. by rewrite study_blocks_quiet.
  - by rewrite tag_reads_quiet.
Qed.

Lemma announced_at_most_once_owned (E : Env) :
  sink_owned (@announced_at_most_once E).
Proof.
  intros w w' Hs Hlog [Hblocks Hreads]. unfold announced_at_most_once. rewrite Hs.
  destruct Hlog as [-> | (ev & Hq & ->)]; [done|].
  split.
  - intros study. by rewrite study_blocks_quiet.
  - by rewrite tag_reads_quiet.
Qed.

Lemma announced_once_weaken (E : Env) (w : World E) :
  announced_once w → announced_at_most_once w.
Proof. intros [Hblocks Hreads]. split; [intros study; rewrite Hblocks|]; lia. Qed.

Lemma studies_within_imports_owned (E : Env) :
  sink_owned (@studies_within_imports E).
Proof. intros w w' Hs _. unfold studies_within_imports. by rewrite Hs. Qed.

(** *** Rules for triples *)

Section Rules.
Context {E : Env}.
Implicit Types P I X : World E → Prop.

Lemma triple_ret {A} P (Q : A → World E → Prop) X (a : A) :
  (∀ w, P w → Q a w) → triple P (ret a) Q X.
Proof. intros H w HP. by apply H. Qed.

Lemma triple_raise {A} P (Q : A → World E → Prop) X (e : exn) :
  (∀ w, P w → X w) → triple P (raise e) Q X.
Proof. intros H w HP. by apply H. Qed.

Lemma triple_bind {A B} P (Q : A → World E → Prop) (R : B → World E → Prop) X
    (m : M E A) (k : A → M E B) :
  triple P m Q X → (∀ a, triple (Q a) (k a) R X) → triple P (bind m k) R X.
Proof.
  intros Hm Hk w HP. specialize (Hm w HP). unfold bind.
  destruct (m w) as [[a|e] w']; [|done]. by apply Hk.
Qed.

Lemma triple_for_each {A} I X (l : list A) (body : A → M E unit) :
  (∀ x, triple I (body x) (λ _, I) X) →
  triple I (for_each l body) (λ _, I) X.
Proof.
  intros Hbody. induction l as [|x l IH]; cbn [for_each].
  - by apply triple_ret.
  - eapply triple_bind; [apply Hbody|]. intros ?. apply IH.
Qed.

Lemma triple_or_raise {A} I X (o : option A) (e : exn) :
  (∀ w, I w → X w) → triple I (or_raise o e) (λ _, I) X.
Proof.
  intros H. destruct o; [by apply triple_ret | by apply triple_raise].
Qed.

Lemma triple_get_session I X : triple I get_session (λ _, I) X.
Proof. by intros w HI. Qed.

Lemma triple_emit I X (ev : event) :
  sink_owned I → quiet_event ev = true → triple I (emit ev) (λ _, I) X.
Proof.
  intros Hown Hq w HI. cbn. eapply Hown; [..|exact HI]; cbn; eauto.
Qed.

Lemma triple_request {A} I X (ev : event) (f : Server E → A * Server E) :
  sink_owned I → quiet_event ev = true → triple I (request ev f) (λ _, I) X.
Proof.
  intros Hown Hq w HI. unfold request. destruct (f (server w)) as [a s'].
  eapply Hown; [..|exact HI]; cbn; eauto.
Qed.

Lemma triple_raise_for_status I X (response : Response) :
  (∀ w, I w → X w) → triple I (raise_for_status E response) (λ _, I) X.
Proof.
  intros H. unfold raise_for_status.
  destruct (status_ok response); [by apply triple_ret | by apply triple_raise].
Qed.

Lemma triple_when I X (cond : bool) (m : M E unit) :
  triple I m (λ _, I) X → triple I (when cond m) (λ _, I) X.
Proof. intros H. destruct cond; [done | by apply triple_ret]. Qed.

End Rules.

(** *** Only the sink touches what the sink owns *)

Section Ownership.
Context (E : Env) (args : Args) (I X : World E → Prop).
Hypothesis I_owned : sink_owned I.
Hypothesis I_X : ∀ w, I w → X w.
Hypothesis sink : ∀ dicom, triple I (upload_buffer E args dicom) (λ _, I) X.

Ltac triple_steps :=
  repeat first
    [ apply sink
    | apply triple_get_session
    | apply triple_or_raise; [exact I_X]
    | apply triple_raise_for_status; [exact I_X]
    | apply triple_when
    | apply triple_raise; [exact I_X]
    | apply triple_ret; [done]
    | apply triple_emit; [exact I_owned | reflexivity]
    | apply triple_request; [exact I_owned | reflexivity]
    | apply triple_for_each; intros ?
    | eapply triple_bind; [|intros ?]
    | progress unfold print, open_rb, response_json
    | case_match ].

Lemma validate_dicom_tags_keeps (file_path : string) :
  triple I (validate_dicom_tags E file_path) (λ _, I) X.
Proof. unfold validate_dicom_tags. triple_steps. Qed.

Lemma upload_tar_keeps (file_path : string) (decoder : tar_mode) :
  triple I (upload_tar E args file_path decoder) (λ _, I) X.
Proof. unfold upload_tar, upload_tar_item. triple_steps. Qed.

Lemma upload_zip_keeps (file_path : string) :
  triple I (upload_zip E args file_path) (λ _, I) X.
Proof. unfold upload_zip, upload_zip_item. triple_steps. Qed.

Lemma decode_file_keeps (file_path : string) :
  triple I (decode_file E args file_path) (λ _, I) X.
Proof.
  unfold decode_file.
  repeat case_match;
    first [ apply upload_tar_keeps | apply upload_zip_keeps
          | unfold upload_bzip2, upload_gzip, upload_file;
            repeat first [ apply validate_dicom_tags_keeps | triple_steps ] ].
Qed.

Lemma clear_orthanc_keeps : triple I (clear_orthanc E) (λ _, I) X.
Proof. unfold clear_orthanc. triple_steps. Qed.

Lemma import_path_keeps (path : string) :
  triple I (import_path E args path) (λ _, I) X.
Proof.
  unfold import_path.
  repeat first [ apply decode_file_keeps | triple_steps ].
Qed.

Lemma print_summary_keeps : triple I (print_summary E) (λ _, I) X.
Proof. unfold print_summary. triple_steps. Qed.

Lemma main_keeps : triple I (main E args) (λ _, I) X.
Proof.
  unfold main.
  eapply triple_bind; [|intros ?; eapply triple_bind; [|intros ?]].
  - apply triple_when, clear_orthanc_keeps.
  - apply triple_for_each. apply import_path_keeps.
  - apply print_summary_keeps.
Qed.

End Ownership.

Lemma size_add_new (study : string) (X : gset string) :
  study ∉ X → size ({[study]} ∪ X) = S (size X).
Proof. intros Hnew. rewrite size_union by set_solver. by rewrite size_singleton. Qed.

Lemma triple_final {E A} (I : World E → Prop) (m : M E A) (w : World E) :
  triple I m (λ _, I) I → I w → I (m w).2.
Proof. intros Hm HI. specialize (Hm w HI). by destruct (m w) as [[a|e] w']. Qed.

(** The sink keeps the seen studies within the successful imports, however
    the call ends. *)
Lemma upload_buffer_within (E : Env) (args : Args) (dicom : bytes) :
  triple studies_within_imports (upload_buffer E args dicom)
    (λ _, studies_within_imports) studies_within_imports.
Proof.
  intros w Hw. unfold studies_within_imports in *. unfold upload_buffer.
  walk_paths.
  all: try lia.
  all: rewrite size_add_new by (by eapply bool_decide_eq_false_1); lia.
Qed.

(** A call that returns leaves every seen study announced exactly once; a
    call that raises has announced nothing twice. *)
Lemma upload_buffer_announces (E : Env) (args : Args) (dicom : bytes) :
  triple announced_once (upload_buffer E args dicom)
    (λ _, announced_once) announced_at_most_once.
Proof.
  intros w [Hblocks Hreads]. unfold upload_buffer.
  walk_paths.
  all: unfold announced_once, announced_at_most_once;
         cbn [session log IMPORTED_STUDIES add_study incr_dicom incr_error incr_json].
  all: unfold study_blocks, tag_reads in *.
  all: (split; [intros study0; specialize (Hblocks study0)|]);
         rewrite ?count_events_snoc; cbn [is_study_block is_tag_read];
         rewrite ?size_add_new by (by eapply bool_decide_eq_false_1);
         try lia.
  all: try match goal with
           | H : bool_decide _ = false |- _ => apply bool_decide_eq_false_1 in H
           end.
  all: repeat case_bool_decide; subst; try lia; try set_solver.
Qed.

Lemma upload_buffer_at_most_once (E : Env) (args : Args) (dicom : bytes) :
  triple announced_at_most_once (upload_buffer E args dicom)
    (λ _, announced_at_most_once) announced_at_most_once.
Proof.
  intros w [Hblocks Hreads]. unfold upload_buffer.
  walk_paths.
  all: unfold announced_at_most_once;
         cbn [session log IMPORTED_STUDIES add_study incr_dicom incr_error incr_json].
  all: unfold study_blocks, tag_reads in *.
  all: (split; [intros study0; specialize (Hblocks study0)|]);
         rewrite ?count_events_snoc; cbn [is_study_block is_tag_read];
         rewrite ?size_add_new by (by eapply bool_decide_eq_false_1);
         try lia.
  all: try match goal with
           | H : bool_decide _ = false |- _ => apply bool_decide_eq_false_1 in H
           end.
  all: repeat case_bool_decide; subst; try lia; try set_solver.
Qed.

Lemma initial_world_announced (E : Env) (srv : Server E) :
  announced_once (initial_world srv).
Proof. split; [intros study|]; reflexivity. Qed.

(** C10.  A call of the upload sink that returns has raised exactly one of
    the three counters by one and left the other two alone.  The sink keeps
    the number of seen studies within the number of successful imports
    however it ends, and so does a whole run from the initial globals. *)
Theorem session_counters (E : Env) (args : Args) :
  (∀ dicom w w',
     upload_buffer E args dicom w = (Returned tt, w') →
     (COUNT_JSON (session w') = S (COUNT_JSON (session w))
      ∧ COUNT_DICOM (session w') = COUNT_DICOM (session w)
      ∧ COUNT_ERROR (session w') = COUNT_ERROR (session w))
     ∨ (COUNT_JSON (session w') = COUNT_JSON (session w)
        ∧ COUNT_DICOM (session w') = S (COUNT_DICOM (session w))
        ∧ COUNT_ERROR (session w') = COUNT_ERROR (session w))
     ∨ (COUNT_JSON (session w') = COUNT_JSON (session w)
        ∧ COUNT_DICOM (session w') = COUNT_DICOM (session w)
        ∧ COUNT_ERROR (session w') = S (COUNT_ERROR (session w))))
  ∧ (∀ dicom w,
       size (IMPORTED_STUDIES (session w)) ≤ COUNT_DICOM (session w) →
       let w' := (upload_buffer E args dicom w).2 in
       size (IMPORTED_STUDIES (session w')) ≤ COUNT_DICOM (session w'))
  ∧ (∀ srv,
       let w' := (main E args (initial_world srv)).2 in
       size (IMPORTED_STUDIES (session w')) ≤ COUNT_DICOM (session w')).
Proof.
  split_and!.
  - intros dicom w w' Hrun. unfold upload_buffer in Hrun.
    walk_paths; cbn; auto.
  - intros dicom w Hw.
    apply (triple_final studies_within_imports); [apply upload_buffer_within | exact Hw].
  - intros srv. apply (triple_final studies_within_imports).
    + apply main_keeps.
      * apply studies_within_imports_owned.
      * done.
      * apply upload_buffer_within.
    + unfold studies_within_imports. cbn. rewrite size_empty. lia.
Qed.

Lemma session_counters_witness :
  (COUNT_JSON (session Demo.one_study_imported)
     = S (COUNT_JSON (session Demo.empty_store))
   ∧ COUNT_DICOM (session Demo.one_study_imported)
     = COUNT_DICOM (session Demo.empty_store)
   ∧ COUNT_ERROR (session Demo.one_study_imported)
     = COUNT_ERROR (session Demo.empty_store))
  ∨ (COUNT_JSON (session Demo.one_study_imported)
       = COUNT_JSON (session Demo.empty_store)
     ∧ COUNT_DICOM (session Demo.one_study_imported)
       = S (COUNT_DICOM (session Demo.empty_store))
     ∧ COUNT_ERROR (session Demo.one_study_imported)
       = COUNT_ERROR (session Demo.empty_store))
  ∨ (COUNT_JSON (session Demo.one_study_imported)
       = COUNT_JSON (session Demo.empty_store)
     ∧ COUNT_DICOM (session Demo.one_study_imported)
       = COUNT_DICOM (session Demo.empty_store)
     ∧ COUNT_ERROR (session Demo.one_study_imported)
       = S (COUNT_ERROR (session Demo.empty_store))).
Proof.
  apply (proj1 (session_counters Demo.env (Demo.quiet []))
           Demo.image_with_ids Demo.empty_store Demo.one_study_imported).
  vm_compute. reflexivity.
Defined.

(** ** Single-stream files and archive members *)

(** The gzip strategy never reads the stream it opens: it is the
    passthrough strategy, whatever the decoders are. *)
Lemma upload_gzip_is_upload_file (E : Env) (args : Args) (path : string)
    (w : World E) :
  upload_gzip E args path w = upload_file E args path w.
Proof.
  unfold upload_gzip, upload_file, validate_dicom_tags, open_rb, bind, or_raise.
  by destruct (read_file E path).
Qed.

Lemma upload_bzip2_is_upload_file (E : Env) (args : Args) (path : string)
    (w : World E) :
  upload_bzip2 E args path w = upload_file E args path w.
Proof.
  unfold upload_bzip2, upload_file, validate_dicom_tags, open_rb, bind, or_raise.
  by destruct (read_file E path).
Qed.

(** Unfold the script down to the libraries it calls. *)
Ltac open_script :=
  cbv [main clear_orthanc import_path print_summary
       decode_file upload_file upload_gzip upload_bzip2 upload_tar upload_zip
       upload_tar_item upload_zip_item validate_dicom_tags open_rb
       upload_buffer is_json
       bind ret raise or_raise when print emit request modify_session
       get_session response_json raise_for_status getitem tag_or_empty
       with_pydicom with_streams
       read_file isfile isdir walk dcmread save_as decode json_loads
       gzip_read bz2_read tarfile_open zipfile_open Server post_instances
       get_instance_tags get_studies delete_study
       url force clear verbose ignore_errors files].

Lemma decode_file_ignores_streams (E : Env) (args : Args)
    (gz bz : bytes → option bytes) (path : string) (w : World E) :
  decode_file (with_streams E gz bz) args path w = decode_file E args path w.
Proof. open_script. reflexivity. Qed.

(** Archive members never meet pydicom. *)
Lemma upload_tar_ignores_pydicom (E : Env) (args : Args)
    (read : bytes → option Dataset) (save : Dataset → bytes)
    (path : string) (decoder : tar_mode) (w : World E) :
  upload_tar (with_pydicom E read save) args path decoder w
  = upload_tar E args path decoder w.
Proof. open_script. reflexivity. Qed.

Lemma upload_zip_ignores_pydicom (E : Env) (args : Args)
    (read : bytes → option Dataset) (save : Dataset → bytes)
    (path : string) (w : World E) :
  upload_zip (with_pydicom E read save) args path w = upload_zip E args path w.
Proof. open_script. reflexivity. Qed.

(** C1.  The file [scan.dcm.gz] holds a gzip stream whose content is a
    complete image.  [decode_file] routes it to [upload_gzip], which hands
    the compressed file itself to tag repair: parsing fails and nothing is
    posted, where the decompressed image would have been imported. *)
Theorem gzip_payload_is_the_compressed_file :
  splitext_ext "scan.dcm.gz" = ".gz"
  ∧ endswith "scan.dcm.gz" ".tar.gz" = false
  ∧ (content ← read_file Demo.env "scan.dcm.gz"; gzip_read Demo.env content)
    = Some Demo.image_with_ids
  ∧ decode_file Demo.env (Demo.quiet []) "scan.dcm.gz" Demo.empty_store
    = (Raised InvalidDicomError, Demo.empty_store)
  ∧ (upload_buffer Demo.env (Demo.quiet []) Demo.image_with_ids
       Demo.empty_store).1 = Returned tt
  ∧ COUNT_DICOM (session Demo.one_study_imported) = 1.
Proof. vm_compute. repeat split. Qed.

(** C2.  The archive [study.tar] holds an image without identity fields.
    [decode_file] posts the member as extracted, and the store rejects it;
    the same bytes as the file [bare.dcm] are repaired before they are
    posted, and imported. *)
Theorem tar_member_is_posted_unrepaired :
  List.filter is_post (log (decode_file Demo.env (Demo.quiet []) "study.tar"
                              Demo.empty_store).2)
    = [EvPost Demo.image_without_ids; EvPost []]
  ∧ dcmread Demo.env Demo.image_without_ids = Some ∅
  ∧ COUNT_DICOM (session (decode_file Demo.env (Demo.quiet []) "study.tar"
                            Demo.empty_store).2) = 0
  ∧ read_file Demo.env "bare.dcm" = Some Demo.image_without_ids
  ∧ List.filter is_post (log (decode_file Demo.env (Demo.quiet []) "bare.dcm"
                                Demo.empty_store).2)
    = [EvPost (save_as Demo.env (fill_required_tags ∅))]
  ∧ COUNT_DICOM (session (decode_file Demo.env (Demo.quiet []) "bare.dcm"
                            Demo.empty_store).2) = 1.
Proof. vm_compute. repeat split. Qed.

(** C5.  With [--clear] and without [--force] the script deletes every
    study of the store without asking: it reads nothing and behaves as
    with [--force]. *)
Theorem clear_without_force_deletes_unasked :
  (main Demo.env (Demo.clearing false) Demo.two_studies_stored).1 = Returned tt
  ∧ List.filter is_delete
      (log (main Demo.env (Demo.clearing false) Demo.two_studies_stored).2)
    = [EvDelete "S1"; EvDelete "S2"]
  ∧ server (main Demo.env (Demo.clearing false) Demo.two_studies_stored).2 = []
  ∧ main Demo.env (Demo.clearing false) Demo.two_studies_stored
    = main Demo.env (Demo.clearing true) Demo.two_studies_stored.
Proof. vm_compute. repeat split. Qed.

(** [args.force] is never read. *)
Lemma main_ignores_force (E : Env) (args : Args) (forced : bool) (w : World E) :
  main E {| url := url args; force := forced; clear := clear args;
            verbose := verbose args; ignore_errors := ignore_errors args;
            files := files args |} w
  = main E args w.
Proof. open_script. reflexivity. Qed.

(** ** Counting the calls of the sink *)

Lemma posts_snoc (l : list event) (ev : event) :
  posts (l ++ [ev]) = posts l + (if is_post ev then 1 else 0).
Proof. apply count_events_snoc. Qed.

(** However it ends, a call of [upload_buffer] is one more call. *)
Lemma upload_buffer_is_one_call (E : Env) (args : Args) (dicom : bytes)
    (w : World E) :
  sink_calls (upload_buffer E args dicom w).2 = S (sink_calls w).
Proof.
  unfold sink_calls, upload_buffer.
  walk_paths; rewrite ?posts_snoc; cbn [is_post]; lia.
Qed.

Lemma for_each_app {E A} (l1 l2 : list A) (body : A → M E unit) (w : World E) :
  for_each (l1 ++ l2) body w
  = bind (for_each l1 body) (λ _, for_each l2 body) w.
Proof.
  revert w. induction l1 as [|x l1 IH]; intros w; cbn [for_each app].
  - reflexivity.
  - unfold bind in *. destruct (body x w) as [[[]|e] w1]; [apply IH | reflexivity].
Qed.

(** A loop that calls the sink for the items [keep] selects, and does
    nothing else that counts, has called it once per selected item when it
    returns, and at most that often when it raises. *)
Lemma for_each_sink_calls {E A} (keep : A → bool) (body : A → M E unit)
    (l : list A) (w : World E) :
  (∀ x w0, keep x = true → sink_calls (body x w0).2 = S (sink_calls w0)) →
  (∀ x w0, keep x = false → body x w0 = (Returned tt, w0)) →
  sink_calls (for_each l body w).2 ≤ sink_calls w + length (List.filter keep l)
  ∧ ((for_each l body w).1 = Returned tt →
     sink_calls (for_each l body w).2 = sink_calls w + length (List.filter keep l)).
Proof.
  intros Hkeep Hskip. revert w.
  induction l as [|x l IH]; intros w; cbn [for_each List.filter].
  - cbn. split; [lia | intros _; lia].
  - unfold bind. destruct (keep x) eqn:Hx.
    + specialize (Hkeep x w Hx).
      destruct (body x w) as [[[]|e] w1]; cbn [fst snd] in *.
      * destruct (IH w1) as [Hle Heq]. cbn [length]. split; [lia|].
        intros Hret. rewrite (Heq Hret). lia.
      * cbn [length]. split; [lia | done].
    + rewrite (Hskip x w Hx). destruct (IH w) as [Hle Heq]. done.
Qed.

Lemma upload_tar_item_call (E : Env) (args : Args) (item : TarInfo) (w : World E) :
  isreg item = true →
  sink_calls (upload_tar_item E args item w).2 = S (sink_calls w).
Proof.
  intros Hreg. unfold upload_tar_item. rewrite Hreg.
  unfold bind, when. destruct (verbose args); cbn -[upload_buffer sink_calls].
  - rewrite upload_buffer_is_one_call. unfold sink_calls. cbn [session log].
    rewrite posts_snoc. cbn [is_post]. lia.
  - by rewrite upload_buffer_is_one_call.
Qed.

Lemma upload_zip_item_call (E : Env) (args : Args) (item : ZipInfo) (w : World E) :
  zip_nonempty item = true →
  sink_calls (upload_zip_item E args item w).2 = S (sink_calls w).
Proof.
  unfold zip_nonempty. intros Hsize. unfold upload_zip_item. rewrite Hsize.
  unfold bind, when. destruct (verbose args); cbn -[upload_buffer sink_calls].
  - rewrite upload_buffer_is_one_call. unfold sink_calls. cbn [session log].
    rewrite posts_snoc. cbn [is_post]. lia.
  - by rewrite upload_buffer_is_one_call.
Qed.

Lemma sink_calls_print {E} (w : World E) (l : line) (cond : bool) :
  sink_calls (when cond (print l) w).2 = sink_calls w.
Proof.
  destruct cond; [|done]. unfold sink_calls. cbn [when print emit snd session log].
  rewrite posts_snoc. cbn [is_post]. lia.
Qed.

Lemma upload_tar_opened (E : Env) (args : Args) (path : string)
    (decoder : tar_mode) (content : bytes) (tar : list TarInfo) (w : World E) :
  read_file E path = Some content →
  tarfile_open E decoder content = Some tar →
  upload_tar E args path decoder w
  = for_each tar (upload_tar_item E args)
      (when (verbose args) (print (L_uncompressing_tar path)) w).2.
Proof.
  intros Hread Hopen. unfold upload_tar, open_rb, bind, or_raise, ret.
  destruct (verbose args); cbn [when print emit ret snd];
    by rewrite Hread, Hopen.
Qed.

Lemma upload_zip_opened (E : Env) (args : Args) (path : string)
    (content : bytes) (zip : list ZipInfo) (w : World E) :
  read_file E path = Some content →
  zipfile_open E content = Some zip →
  upload_zip E args path w
  = for_each zip (upload_zip_item E args)
      (when (verbose args) (print (L_uncompressing_zip path)) w).2.
Proof.
  intros Hread Hopen. unfold upload_zip, open_rb, bind, or_raise, ret.
  destruct (verbose args); cbn [when print emit ret snd];
    by rewrite Hread, Hopen.
Qed.

(** C4, as the script has it.  A tar archive (in any of the three modes)
    that opens makes the sink run once for every regular member, empty ones
    included, and never for another member: exactly that often when
    [upload_tar] returns, and no more often when a call of the sink raised.
    A zip archive that opens makes the sink run once for every member of
    non-zero size, whatever its kind; members of size zero are skipped. *)
Theorem archive_members_reach_the_sink (E : Env) (args : Args) :
  (∀ path decoder content tar w,
     read_file E path = Some content →
     tarfile_open E decoder content = Some tar →
     let run := upload_tar E args path decoder w in
     sink_calls run.2 ≤ sink_calls w + length (List.filter isreg tar)
     ∧ (run.1 = Returned tt →
        sink_calls run.2 = sink_calls w + length (List.filter isreg tar)))
  ∧ (∀ path content zip w,
       read_file E path = Some content →
       zipfile_open E content = Some zip →
       let run := upload_zip E args path w in
       sink_calls run.2 ≤ sink_calls w + length (List.filter zip_nonempty zip)
       ∧ (run.1 = Returned tt →
          sink_calls run.2
          = sink_calls w + length (List.filter zip_nonempty zip))).
Proof.
  split.
  - intros path decoder content tar w Hread Hopen run. subst run.
    rewrite (upload_tar_opened E args path decoder content tar w Hread Hopen).
    rewrite <- (sink_calls_print w (L_uncompressing_tar path) (verbose args)).
    apply for_each_sink_calls.
    + intros item w1 Hreg. by apply upload_tar_item_call.
    + intros item w1 Hreg. unfold upload_tar_item. by rewrite Hreg.
  - intros path content zip w Hread Hopen run. subst run.
    rewrite (upload_zip_opened E args path content zip w Hread Hopen).
    rewrite <- (sink_calls_print w (L_uncompressing_zip path) (verbose args)).
    apply for_each_sink_calls.
    + intros item w1 Hsize. by apply upload_zip_item_call.
    + intros item w1 Hsize. unfold upload_zip_item.
      unfold zip_nonempty in Hsize. by rewrite Hsize.
Qed.

Lemma archive_members_reach_the_sink_witness :
  sink_calls (upload_tar Demo.env (Demo.quiet []) "study.tar" mode_r
                Demo.empty_store).2
  = sink_calls Demo.empty_store + length (List.filter isreg Demo.tar_entries)
  ∧ sink_calls (upload_zip Demo.env (Demo.quiet []) "study.zip"
                  Demo.empty_store).2
    = sink_calls Demo.empty_store
      + length (List.filter zip_nonempty Demo.zip_entries).
Proof.
  split.
  - apply (proj1 (archive_members_reach_the_sink Demo.env (Demo.quiet []))
             "study.tar" mode_r (Demo.b "TAR1") Demo.tar_entries Demo.empty_store);
      vm_compute; reflexivity.
  - apply (proj2 (archive_members_reach_the_sink Demo.env (Demo.quiet []))
             "study.zip" (Demo.b "ZIP1") Demo.zip_entries Demo.empty_store);
      vm_compute; reflexivity.
Defined.

(** The archive [study.zip] holds a directory and an empty regular file.
    [upload_zip] returns without having called the sink, though the archive
    has one regular member. *)
Lemma zip_skips_the_empty_member :
  read_file Demo.env "study.zip" = Some (Demo.b "ZIP1")
  ∧ zipfile_open Demo.env (Demo.b "ZIP1") = Some Demo.zip_entries
  ∧ length (List.filter zip_isreg Demo.zip_entries) = 1
  ∧ (decode_file Demo.env (Demo.quiet []) "study.zip" Demo.empty_store).1
    = Returned tt
  ∧ sink_calls (decode_file Demo.env (Demo.quiet []) "study.zip"
                  Demo.empty_store).2
    ≠ sink_calls Demo.empty_store
      + length (List.filter zip_isreg Demo.zip_entries).
Proof. vm_compute. repeat split. lia. Qed.

(** ** Archives that do not open *)





(** ** New studies *)

(** A study that has been seen is not announced again, however the call
    ends, and stays seen. *)
Lemma upload_buffer_keeps_seen (E : Env) (args : Args) (dicom : bytes)
    (w : World E) (study : string) :
  study ∈ IMPORTED_STUDIES (session w) →
  study_blocks study (log (upload_buffer E args dicom w).2)
    = study_blocks study (log w)
  ∧ study ∈ IMPORTED_STUDIES (session (upload_buffer E args dicom w).2).
Proof.
  intros Hseen. unfold upload_buffer.
  walk_paths.
  all: try match goal with
           | H : bool_decide _ = false |- _ => apply bool_decide_eq_false_1 in H
           end.
  all: unfold study_blocks; rewrite ?count_events_snoc; cbn [is_study_block].
  all: split; [|set_solver].
  all: repeat case_bool_decide; subst; try lia; done.
Qed.

(** What a successful upload does, by whether its study has been seen. *)
Lemma upload_buffer_imported (E : Env) (args : Args) (dicom : bytes)
    (w w' : World E) (response : Response) (srv' : Server E)
    (info : gmap string string) (study : string) :
  is_json E dicom = false →
  post_instances E (server w) dicom = (response, srv') →
  status_ok response = true →
  json_body response = Some (JsonDict info) →
  info !! "ParentStudy" = Some study →
  upload_buffer E args dicom w = (Returned tt, w') →
  if bool_decide (study ∈ IMPORTED_STUDIES (session w))
  then log w' = log w ++ [EvPost dicom]
       ∧ IMPORTED_STUDIES (session w') = IMPORTED_STUDIES (session w)
  else (∃ id patient pid uid,
          log w' = log w ++
            [EvPost dicom; EvGetTags id;
             EvPrint L_blank; EvPrint L_new_imported_study;
             EvPrint (L_orthanc_patient patient);
             EvPrint (L_orthanc_study study);
             EvPrint (L_dicom_patient_id pid);
             EvPrint (L_dicom_study_uid uid);
             EvPrint L_blank])
       ∧ IMPORTED_STUDIES (session w') = {[study]} ∪ IMPORTED_STUDIES (session w).
Proof.
  intros Hjson Hpost Hstatus Hbody Hstudy Hrun.
  unfold upload_buffer in Hrun. walk_paths.
  all: try (rewrite Hstatus in *; done).
  all: split; [|done].
  all: first [ done
             | do 4 eexists; rewrite <- !(assoc_L (++)); reflexivity ].
Qed.

(** C9.  In a run of the script from its initial globals, the line that
    announces a study is printed at most once per study and a tags request
    is sent at most once per seen study; when the run returns, every seen
    study has been announced exactly once, with one tags request each.  The
    block comes with the first successful upload of the study: that call
    posts, reads the tags once and prints the block; a later successful
    upload of the same study only posts; and whatever a call does, a study
    already seen is not announced again. *)
Theorem new_study_announced_once (E : Env) (args : Args) :
  (∀ srv study,
     let w' := (main E args (initial_world srv)).2 in
     study_blocks study (log w') ≤ 1
     ∧ tag_reads (log w') ≤ size (IMPORTED_STUDIES (session w')))
  ∧ (∀ srv w' study,
       main E args (initial_world srv) = (Returned tt, w') →
       study_blocks study (log w')
         = (if bool_decide (study ∈ IMPORTED_STUDIES (session w')) then 1 else 0)
       ∧ tag_reads (log w') = size (IMPORTED_STUDIES (session w')))
  ∧ (∀ dicom w w' response srv' info study,
       is_json E dicom = false →
       post_instances E (server w) dicom = (response, srv') →
       status_ok response = true →
       json_body response = Some (JsonDict info) →
       info !! "ParentStudy" = Some study →
       upload_buffer E args dicom w = (Returned tt, w') →
       if bool_decide (study ∈ IMPORTED_STUDIES (session w))
       then log w' = log w ++ [EvPost dicom]
            ∧ IMPORTED_STUDIES (session w') = IMPORTED_STUDIES (session w)
       else (∃ id patient pid uid,
               log w' = log w ++
                 [EvPost dicom; EvGetTags id;
                  EvPrint L_blank; EvPrint L_new_imported_study;
                  EvPrint (L_orthanc_patient patient);
                  EvPrint (L_orthanc_study study);
                  EvPrint (L_dicom_patient_id pid);
                  EvPrint (L_dicom_study_uid uid);
                  EvPrint L_blank])
            ∧ IMPORTED_STUDIES (session w')
              = {[study]} ∪ IMPORTED_STUDIES (session w))
  ∧ (∀ dicom w study,
       study ∈ IMPORTED_STUDIES (session w) →
       let w' := (upload_buffer E args dicom w).2 in
       study_blocks study (log w') = study_blocks study (log w)
       ∧ study ∈ IMPORTED_STUDIES (session w')).
Proof.
  assert (Hmain : triple (@announced_once E) (main E args)
                    (λ _, announced_once) announced_at_most_once).
  { apply main_keeps.
    - apply announced_once_owned.
    - apply announced_once_weaken.
    - apply upload_buffer_announces. }
  split_and!.
  - intros srv study w'. subst w'.
    specialize (Hmain (initial_world srv) (initial_world_announced E srv)).
    destruct (main E args (initial_world srv)) as [[[]|e] w']; cbn [snd].
    + apply announced_once_weaken in Hmain. destruct Hmain as [Hb Hr].
      split; [|done]. specialize (Hb study). case_bool_decide; lia.
    + destruct Hmain as [Hb Hr].
      split; [|done]. specialize (Hb study). case_bool_decide; lia.
  - intros srv w' study Hrun.
    specialize (Hmain (initial_world srv) (initial_world_announced E srv)).
    rewrite Hrun in Hmain. destruct Hmain as [Hb Hr]. by split.
  - apply upload_buffer_imported.
  - intros dicom w study Hseen w'. by apply upload_buffer_keeps_seen.
Qed.

Lemma new_study_announced_once_witness :
  (if bool_decide ("S1" ∈ IMPORTED_STUDIES (session Demo.empty_store))
   then log Demo.one_study_imported
          = log Demo.empty_store ++ [EvPost Demo.image_with_ids]
        ∧ IMPORTED_STUDIES (session Demo.one_study_imported)
          = IMPORTED_STUDIES (session Demo.empty_store)
   else (∃ id patient pid uid,
           log Demo.one_study_imported = log Demo.empty_store ++
             [EvPost Demo.image_with_ids; EvGetTags id;
              EvPrint L_blank; EvPrint L_new_imported_study;
              EvPrint (L_orthanc_patient patient);
              EvPrint (L_orthanc_study "S1");
              EvPrint (L_dicom_patient_id pid);
              EvPrint (L_dicom_study_uid uid);
              EvPrint L_blank])
        ∧ IMPORTED_STUDIES (session Demo.one_study_imported)
          = {[ "S1" ]} ∪ IMPORTED_STUDIES (session Demo.empty_store))
  ∧ (if bool_decide ("S1" ∈ IMPORTED_STUDIES (session Demo.one_study_imported))
     then log Demo.two_instances_imported
            = log Demo.one_study_imported ++ [EvPost Demo.second_image]
          ∧ IMPORTED_STUDIES (session Demo.two_instances_imported)
            = IMPORTED_STUDIES (session Demo.one_study_imported)
     else (∃ id patient pid uid,
             log Demo.two_instances_imported = log Demo.one_study_imported ++
               [EvPost Demo.second_image; EvGetTags id;
                EvPrint L_blank; EvPrint L_new_imported_study;
                EvPrint (L_orthanc_patient patient);
                EvPrint (L_orthanc_study "S1");
                EvPrint (L_dicom_patient_id pid);
                EvPrint (L_dicom_study_uid uid);
                EvPrint L_blank])
          ∧ IMPORTED_STUDIES (session Demo.two_instances_imported)
            = {[ "S1" ]} ∪ IMPORTED_STUDIES (session Demo.one_study_imported)).
Proof.
  destruct (new_study_announced_once Demo.env (Demo.quiet []))
    as (_ & _ & Hstep & _).
  split.
  - apply (Hstep Demo.image_with_ids Demo.empty_store Demo.one_study_imported
             (Demo.orthanc_post [] Demo.image_with_ids).1
             (Demo.orthanc_post [] Demo.image_with_ids).2
             (Demo.info_of "1.1") "S1"); vm_compute; reflexivity.
  - apply (Hstep Demo.second_image Demo.one_study_imported
             Demo.two_instances_imported
             Demo.second_answer.1 Demo.second_answer.2
             (Demo.info_of "1.2") "S1"); vm_compute; reflexivity.
Defined.

(** * Further properties of the script *)

(** ** Tag repair, continued *)

(** X1.  Tag repair changes a dataset exactly when one of the four identity
    fields is absent: a dataset that carries all four comes back as it
    was, and only such a dataset does. *)
Theorem fill_required_tags_fixpoint (ds : Dataset) :
  fill_required_tags ds = ds ↔ ∀ k, k ∈ required_keywords → is_Some (ds !! k).
Proof.
  split.
  - intros Hfix k Hk. rewrite <- Hfix. by apply fill_required_tags_complete.
  - intros Hall. apply map_eq. intros k. rewrite fill_required_tags_lookup.
    destruct (ds !! k) as [v|] eqn:Hk; [done|].
    case_bool_decide as Hreq; [|done].
    destruct (Hall k Hreq) as [v Hv]. congruence.
Qed.

(** X3.  A file that [decode_file] does not take for an archive and that
    pydicom cannot parse kills the run with [InvalidDicomError] before
    anything is classified, counted, printed or sent: whatever the flags,
    and also when the file holds JSON. *)
Theorem unparseable_file_aborts (E : Env) (args : Args) (path : string)
    (content : bytes) (w : World E) :
  read_file E path = Some content →
  dcmread E content = None →
  endswith path ".tar.bz2" = false →
  endswith path ".tar.gz" = false →
  splitext_ext path ≠ ".zip" →
  splitext_ext path ≠ ".tar" →
  decode_file E args path w = (Raised InvalidDicomError, w).
Proof.
  intros Hread Hparse Hbz Hgz Hzip Htar. unfold decode_file.
  rewrite Hbz, Hgz.
  apply String.eqb_neq in Hzip, Htar. rewrite Hzip, Htar.
  assert (upload_file E args path w = (Raised InvalidDicomError, w)) as Hfile.
  { unfold upload_file, validate_dicom_tags, open_rb, bind, or_raise, ret, raise.
    rewrite Hread. by rewrite Hparse. }
  repeat case_match;
    by rewrite ?upload_bzip2_is_upload_file, ?upload_gzip_is_upload_file.
Qed.

Lemma unparseable_file_aborts_witness :
  decode_file Demo.env (Demo.lenient []) "scan.dcm.gz" Demo.empty_store
  = (Raised InvalidDicomError, Demo.empty_store).
Proof.
  apply (unparseable_file_aborts Demo.env (Demo.lenient []) "scan.dcm.gz"
           (Demo.b "GZ" ++ Demo.image_with_ids) Demo.empty_store);
    vm_compute; first [reflexivity | discriminate].
Defined.

(** ** The upload sink, continued *)

Lemma posted_snoc (l : list event) (ev : event) :
  posted (l ++ [ev])
  = posted l ++ match ev with EvPost body => [body] | _ => [] end.
Proof. unfold posted. rewrite omap_app. by destruct ev. Qed.

Lemma requests_snoc (l : list event) (ev : event) :
  requests (l ++ [ev]) = requests l ++ (if is_request ev then [ev] else []).
Proof. unfold requests. rewrite List.filter_app. cbn. by destruct (is_request ev). Qed.

Lemma sink_posts_the_payload_once_aux (E : Env) (args : Args) (dicom : bytes)
    (w : World E) :
  posted (log (upload_buffer E args dicom w).2)
    = posted (log w) ++ (if is_json E dicom then [] else [dicom])
  ∧ COUNT_JSON (session (upload_buffer E args dicom w).2)
    = COUNT_JSON (session w) + (if is_json E dicom then 1 else 0).
Proof.
  unfold upload_buffer.
  walk_paths; rewrite ?posted_snoc, <- ?(assoc_L (++)), ?app_nil_r; cbn [app];
    (split; [done | lia]).
Qed.

(** X4.  However a call of the sink ends, it has either counted the payload
    as JSON and posted nothing, or posted the payload once, as given, and
    left the JSON counter alone. *)
Theorem sink_posts_the_payload_once (E : Env) (args : Args) (dicom : bytes)
    (w : World E) :
  posted (log (upload_buffer E args dicom w).2)
    = posted (log w) ++ (if is_json E dicom then [] else [dicom])
  ∧ COUNT_JSON (session (upload_buffer E args dicom w).2)
    = COUNT_JSON (session w) + (if is_json E dicom then 1 else 0).
Proof.
  unfold upload_buffer.
  walk_paths; rewrite ?posted_snoc, <- ?(assoc_L (++)), ?app_nil_r; cbn [app];
    (split; [done | lia]).
Qed.

(** X5.  A POST the store accepts with an answer the script cannot use:
    without a JSON body the call dies before the import is counted; with a
    JSON array the import is counted and nothing else happens; with an
    object that has no [ParentStudy] the import is counted and the call
    dies of the missing key.  In all three the studies seen are as before
    and nothing is printed. *)
Theorem accepted_with_unusable_answer (E : Env) (args : Args) (dicom : bytes)
    (w : World E) (response : Response) (srv' : Server E) :
  is_json E dicom = false →
  post_instances E (server w) dicom = (response, srv') →
  status_ok response = true →
  match json_body response with
  | None =>
      upload_buffer E args dicom w
      = (Raised JSONDecodeError,
         {| session := session w; server := srv';
            log := log w ++ [EvPost dicom] |})
  | Some (JsonList _) =>
      upload_buffer E args dicom w
      = (Returned tt,
         {| session := {| IMPORTED_STUDIES := IMPORTED_STUDIES (session w);
                          COUNT_ERROR := COUNT_ERROR (session w);
                          COUNT_DICOM := S (COUNT_DICOM (session w));
                          COUNT_JSON := COUNT_JSON (session w) |};
            server := srv'; log := log w ++ [EvPost dicom] |})
  | Some (JsonDict info) =>
      info !! "ParentStudy" = None →
      upload_buffer E args dicom w
      = (Raised (KeyError "ParentStudy"),
         {| session := {| IMPORTED_STUDIES := IMPORTED_STUDIES (session w);
                          COUNT_ERROR := COUNT_ERROR (session w);
                          COUNT_DICOM := S (COUNT_DICOM (session w));
                          COUNT_JSON := COUNT_JSON (session w) |};
            server := srv'; log := log w ++ [EvPost dicom] |})
  end.
Proof.
  intros Hjson Hpost Hstatus.
  destruct (json_body response) as [[info|l]|] eqn:Hbody; [intros Hstudy|..];
    unfold upload_buffer; rewrite Hjson;
    unfold bind at 1; unfold request; rewrite Hpost, Hstatus; cbn [negb];
    unfold_monad; cbn; rewrite Hbody; cbn; by rewrite ?Hstudy.
Qed.

Lemma accepted_with_unusable_answer_witness :
  upload_buffer Scripted.env (Demo.quiet []) Demo.image_with_ids
    (Scripted.start [Scripted.accepted (JsonDict Scripted.info_without_study)])
  = (Raised (KeyError "ParentStudy"),
     {| session := {| IMPORTED_STUDIES := ∅; COUNT_ERROR := 0;
                      COUNT_DICOM := 1; COUNT_JSON := 0 |};
        server := []; log := [EvPost Demo.image_with_ids] |}).
Proof.
  apply (accepted_with_unusable_answer Scripted.env (Demo.quiet [])
           Demo.image_with_ids
           (Scripted.start [Scripted.accepted (JsonDict Scripted.info_without_study)])
           (Scripted.accepted (JsonDict Scripted.info_without_study)) []);
    vm_compute; reflexivity.
Defined.

(** X6.  The first accepted instance of a study whose answer has no [ID]:
    the import is counted and the study is recorded as seen, and then the
    call dies of the missing key, before any tags request and before
    anything is printed. *)
Theorem new_study_without_instance_id (E : Env) (args : Args) (dicom : bytes)
    (w : World E) (response : Response) (srv' : Server E)
    (info : gmap string string) (study : string) :
  is_json E dicom = false →
  post_instances E (server w) dicom = (response, srv') →
  status_ok response = true →
  json_body response = Some (JsonDict info) →
  info !! "ParentStudy" = Some study →
  study ∉ IMPORTED_STUDIES (session w) →
  info !! "ID" = None →
  upload_buffer E args dicom w
  = (Raised (KeyError "ID"),
     {| session := {| IMPORTED_STUDIES := {[study]} ∪ IMPORTED_STUDIES (session w);
                      COUNT_ERROR := COUNT_ERROR (session w);
                      COUNT_DICOM := S (COUNT_DICOM (session w));
                      COUNT_JSON := COUNT_JSON (session w) |};
        server := srv'; log := log w ++ [EvPost dicom] |}).
Proof.
  intros Hjson Hpost Hstatus Hbody Hstudy Hnew Hid.
  unfold upload_buffer. rewrite Hjson.
  unfold bind at 1. unfold request. rewrite Hpost, Hstatus. cbn [negb].
  unfold_monad. cbn. rewrite Hbody. cbn. rewrite Hstudy. cbn.
  rewrite bool_decide_eq_false_2 by done. by rewrite Hid.
Qed.

Lemma new_study_without_instance_id_witness :
  upload_buffer Scripted.env (Demo.quiet []) Demo.image_with_ids
    (Scripted.start [Scripted.accepted (JsonDict Scripted.info_without_id)])
  = (Raised (KeyError "ID"),
     {| session := {| IMPORTED_STUDIES := {[ "S1" ]} ∪ ∅; COUNT_ERROR := 0;
                      COUNT_DICOM := 1; COUNT_JSON := 0 |};
        server := []; log := [EvPost Demo.image_with_ids] |}).
Proof.
  apply (new_study_without_instance_id Scripted.env (Demo.quiet [])
           Demo.image_with_ids
           (Scripted.start [Scripted.accepted (JsonDict Scripted.info_without_id)])
           (Scripted.accepted (JsonDict Scripted.info_without_id)) []
           Scripted.info_without_id "S1");
    try (vm_compute; reflexivity).
  set_solver.
Defined.

(** X7.  When the tags of the first accepted instance of a study cannot be
    read (the GET is answered with a status that is not 2xx), the call dies
    of [HTTPError], in ignore-errors mode too: the import is counted, the
    study is recorded as seen, and no line of the block is printed. *)
Theorem failed_tags_read_is_fatal (E : Env) (args : Args) (dicom : bytes)
    (w : World E) (response response_2 : Response) (srv' srv'' : Server E)
    (info : gmap string string) (study id : string) :
  is_json E dicom = false →
  post_instances E (server w) dicom = (response, srv') →
  status_ok response = true →
  json_body response = Some (JsonDict info) →
  info !! "ParentStudy" = Some study →
  study ∉ IMPORTED_STUDIES (session w) →
  info !! "ID" = Some id →
  get_instance_tags E srv' id = (response_2, srv'') →
  status_ok response_2 = false →
  upload_buffer E args dicom w
  = (Raised HTTPError,
     {| session := {| IMPORTED_STUDIES := {[study]} ∪ IMPORTED_STUDIES (session w);
                      COUNT_ERROR := COUNT_ERROR (session w);
                      COUNT_DICOM := S (COUNT_DICOM (session w));
                      COUNT_JSON := COUNT_JSON (session w) |};
        server := srv''; log := log w ++ [EvPost dicom; EvGetTags id] |}).
Proof.
  intros Hjson Hpost Hstatus Hbody Hstudy Hnew Hid Htags Hfail.
  unfold upload_buffer. rewrite Hjson.
  unfold bind at 1. unfold request. rewrite Hpost, Hstatus. cbn [negb].
  unfold_monad. cbn. rewrite Hbody. cbn. rewrite Hstudy. cbn.
  rewrite bool_decide_eq_false_2 by done. rewrite Hid. cbn.
  rewrite Htags, Hfail. by rewrite <- (assoc_L (++)).
Qed.

Lemma failed_tags_read_is_fatal_witness :
  upload_buffer Scripted.env (Demo.lenient []) Demo.image_with_ids
    (Scripted.start [Scripted.accepted (JsonDict Scripted.complete_info)])
  = (Raised HTTPError,
     {| session := {| IMPORTED_STUDIES := {[ "S1" ]} ∪ ∅; COUNT_ERROR := 0;
                      COUNT_DICOM := 1; COUNT_JSON := 0 |};
        server := [];
        log := [EvPost Demo.image_with_ids; EvGetTags "i1"] |}).
Proof.
  apply (failed_tags_read_is_fatal Scripted.env (Demo.lenient [])
           Demo.image_with_ids
           (Scripted.start [Scripted.accepted (JsonDict Scripted.complete_info)])
           (Scripted.accepted (JsonDict Scripted.complete_info))
           Scripted.unavailable [] []
           Scripted.complete_info "S1" "i1");
    try (vm_compute; reflexivity).
  set_solver.
Defined.

(** X8.  The block of a new study, in full: after the POST and one tags
    request come a blank line, the heading, the patient and the study as
    the store named them in its answer to the POST, the DICOM patient ID and
    study instance UID as the tags give them, [(empty)] standing for a tag
    that is absent, and a blank line. *)
Theorem new_study_block (E : Env) (args : Args) (dicom : bytes)
    (w : World E) (response response_2 : Response) (srv' srv'' : Server E)
    (info tags : gmap string string) (study id patient : string) :
  is_json E dicom = false →
  post_instances E (server w) dicom = (response, srv') →
  status_ok response = true →
  json_body response = Some (JsonDict info) →
  info !! "ParentStudy" = Some study →
  study ∉ IMPORTED_STUDIES (session w) →
  info !! "ID" = Some id →
  info !! "ParentPatient" = Some patient →
  get_instance_tags E srv' id = (response_2, srv'') →
  status_ok response_2 = true →
  json_body response_2 = Some (JsonDict tags) →
  upload_buffer E args dicom w
  = (Returned tt,
     {| session := {| IMPORTED_STUDIES := {[study]} ∪ IMPORTED_STUDIES (session w);
                      COUNT_ERROR := COUNT_ERROR (session w);
                      COUNT_DICOM := S (COUNT_DICOM (session w));
                      COUNT_JSON := COUNT_JSON (session w) |};
        server := srv'';
        log := log w ++
          [EvPost dicom; EvGetTags id;
           EvPrint L_blank; EvPrint L_new_imported_study;
           EvPrint (L_orthanc_patient patient);
           EvPrint (L_orthanc_study study);
           EvPrint (L_dicom_patient_id (default "(empty)" (tags !! "0010,0020")));
           EvPrint (L_dicom_study_uid (default "(empty)" (tags !! "0020,000d")));
           EvPrint L_blank] |}).
Proof.
  intros Hjson Hpost Hstatus Hbody Hstudy Hnew Hid Hpatient Htags Hok Htagsbody.
  unfold upload_buffer. rewrite Hjson.
  unfold bind at 1. unfold request. rewrite Hpost, Hstatus. cbn [negb].
  unfold_monad. cbn. rewrite Hbody. cbn. rewrite Hstudy. cbn.
  rewrite bool_decide_eq_false_2 by done. rewrite Hid. cbn.
  rewrite Htags, Hok. cbn. rewrite Htagsbody. cbn. rewrite Hpatient. cbn.
  by rewrite <- !(assoc_L (++)).
Qed.

Lemma new_study_block_witness :
  upload_buffer Scripted.env (Demo.quiet []) Demo.image_with_ids
    (Scripted.start [Scripted.accepted (JsonDict Scripted.complete_info);
                     Scripted.accepted (JsonDict Scripted.patient_only)])
  = (Returned tt,
     {| session := {| IMPORTED_STUDIES := {[ "S1" ]} ∪ ∅; COUNT_ERROR := 0;
                      COUNT_DICOM := 1; COUNT_JSON := 0 |};
        server := [];
        log := [EvPost Demo.image_with_ids; EvGetTags "i1";
                EvPrint L_blank; EvPrint L_new_imported_study;
                EvPrint (L_orthanc_patient "p1");
                EvPrint (L_orthanc_study "S1");
                EvPrint (L_dicom_patient_id
                           (default "(empty)" (Scripted.patient_only !! "0010,0020")));
                EvPrint (L_dicom_study_uid
                           (default "(empty)" (Scripted.patient_only !! "0020,000d")));
                EvPrint L_blank] |}).
Proof.
  apply (new_study_block Scripted.env (Demo.quiet []) Demo.image_with_ids
           (Scripted.start [Scripted.accepted (JsonDict Scripted.complete_info);
                            Scripted.accepted (JsonDict Scripted.patient_only)])
           (Scripted.accepted (JsonDict Scripted.complete_info))
           (Scripted.accepted (JsonDict Scripted.patient_only))
           [Scripted.accepted (JsonDict Scripted.patient_only)] []
           Scripted.complete_info Scripted.patient_only "S1" "i1" "p1");
    try (vm_compute; reflexivity).
  set_solver.
Defined.

(** X9.  The flags never change what the sink counts or sends: under any
    two command lines for the same store a call leaves the same globals,
    the same server and the same requests behind.  [--verbose] and
    [--ignore-errors] show in the console only (and in how the call
    ends). *)
Theorem sink_flags_show_in_console_only (E : Env) (args args' : Args)
    (dicom : bytes) (w : World E) :
  url args = url args' →
  same_but_console (upload_buffer E args dicom w).2
                   (upload_buffer E args' dicom w).2.
Proof.
  intros _. unfold same_but_console, upload_buffer.
  walk_paths; rewrite ?requests_snoc; cbn [is_request]; rewrite ?app_nil_r;
    done.
Qed.

Lemma sink_flags_show_in_console_only_witness :
  same_but_console
    (upload_buffer Demo.env (Demo.quiet []) Demo.image_without_ids
       Demo.empty_store).2
    (upload_buffer Demo.env
       {| url := "http://localhost:8042"; force := false; clear := false;
          verbose := true; ignore_errors := true; files := [] |}
       Demo.image_without_ids Demo.empty_store).2.
Proof.
  apply (sink_flags_show_in_console_only Demo.env (Demo.quiet [])
           {| url := "http://localhost:8042"; force := false; clear := false;
              verbose := true; ignore_errors := true; files := [] |}
           Demo.image_without_ids Demo.empty_store).
  reflexivity.
Defined.

Lemma session_grew_trans (s1 s2 s3 : Session) :
  session_grew s1 s2 → session_grew s2 s3 → session_grew s1 s3.
Proof.
  intros (? & ? & ? & ?) (? & ? & ? & ?). split_and!; [set_solver | lia..].
Qed.

Lemma upload_buffer_grows (E : Env) (args : Args) (dicom : bytes) (w : World E) :
  session_grew (session w) (session (upload_buffer E args dicom w).2).
Proof.
  unfold session_grew, upload_buffer.
  walk_paths; split_and!; first [lia | set_solver].
Qed.

(** X10.  No run of the script lowers a counter or forgets a study,
    however it ends. *)
Theorem session_only_grows (E : Env) (args : Args) (w : World E) :
  session_grew (session w) (session (main E args w).2).
Proof.
  apply (triple_final (λ w', session_grew (session w) (session w'))).
  - apply main_keeps.
    + intros w1 w2 Hs _. by rewrite Hs.
    + done.
    + intros dicom w1 Hw1.
      pose proof (upload_buffer_grows E args dicom w1) as Hstep.
      destruct (upload_buffer E args dicom w1) as [[[]|e] w2];
        by eapply session_grew_trans.
  - split_and!; [set_solver | lia..].
Qed.

(** ** Archives, continued *)

(** A loop that hands the sink the data of the items [keep] selects. *)
Lemma for_each_posts {E A} (args : Args) (keep : A → bool) (data : A → bytes)
    (body : A → M E unit) (l : list A) (w : World E) :
  (∀ x w0, keep x = true →
     posted (log (body x w0).2)
       = posted (log w0) ++ not_json E [data x]
     ∧ COUNT_JSON (session (body x w0).2)
       = COUNT_JSON (session w0) + json_among E [data x]) →
  (∀ x w0, keep x = false → body x w0 = (Returned tt, w0)) →
  (for_each l body w).1 = Returned tt →
  posted (log (for_each l body w).2)
    = posted (log w) ++ not_json E (data <$> List.filter keep l)
  ∧ COUNT_JSON (session (for_each l body w).2)
    = COUNT_JSON (session w) + json_among E (data <$> List.filter keep l).
Proof.
  intros Hkeep Hskip. revert w.
  induction l as [|x l IH]; intros w; cbn [for_each List.filter].
  - intros _. cbn. rewrite app_nil_r. unfold json_among. cbn. split; [done|lia].
  - unfold bind. destruct (keep x) eqn:Hx.
    + destruct (Hkeep x w Hx) as [Hp Hc].
      destruct (body x w) as [[[]|e] w1]; cbn [fst snd] in *; [|done].
      intros Hret. destruct (IH w1 Hret) as [Hp' Hc'].
      rewrite Hp', Hp, Hc', Hc. cbn [fmap list_fmap].
      unfold not_json, json_among. cbn [List.filter].
      destruct (is_json E (data x)); cbn [negb app length];
        rewrite ?app_nil_r, <- ?(assoc_L (++)); split; first [done | lia].
    + rewrite (Hskip x w Hx). apply IH.
Qed.

Lemma upload_item_posts (E : Env) (args : Args) (name : string)
    (dicom : bytes) (w : World E) :
  let run :=
    (when (verbose args) (print (L_uploading name (length dicom))) ;;
     upload_buffer E args dicom) w in
  posted (log run.2) = posted (log w) ++ not_json E [dicom]
  ∧ COUNT_JSON (session run.2) = COUNT_JSON (session w) + json_among E [dicom].
Proof.
  cbn zeta. unfold bind, when, not_json, json_among. cbn [List.filter].
  destruct (verbose args); cbn [print emit ret].
  - destruct (sink_posts_the_payload_once_aux E args dicom
                {| session := session w; server := server w;
                   log := log w ++ [EvPrint (L_uploading name (length dicom))] |})
      as [Hp Hc].
    rewrite Hp, Hc. cbn [log session]. rewrite posted_snoc, app_nil_r.
    by destruct (is_json E dicom).
  - destruct (sink_posts_the_payload_once_aux E args dicom w) as [Hp Hc].
    rewrite Hp, Hc. by destruct (is_json E dicom).
Qed.

(** X11.  An archive that opens and is worked through to the end has made
    the script post exactly its members that are not JSON, as extracted and
    in the order of the archive, and count the others as JSON: the regular
    members for a tar archive, the members of non-zero size for a zip. *)
Theorem archive_members_posted_in_order (E : Env) (args : Args) :
  (∀ path decoder content tar w,
     read_file E path = Some content →
     tarfile_open E decoder content = Some tar →
     let run := upload_tar E args path decoder w in
     run.1 = Returned tt →
     posted (log run.2)
       = posted (log w) ++ not_json E (tar_data <$> List.filter isreg tar)
     ∧ COUNT_JSON (session run.2)
       = COUNT_JSON (session w)
         + json_among E (tar_data <$> List.filter isreg tar))
  ∧ (∀ path content zip w,
       read_file E path = Some content →
       zipfile_open E content = Some zip →
       let run := upload_zip E args path w in
       run.1 = Returned tt →
       posted (log run.2)
         = posted (log w) ++ not_json E (zip_data <$> List.filter zip_nonempty zip)
       ∧ COUNT_JSON (session run.2)
         = COUNT_JSON (session w)
           + json_among E (zip_data <$> List.filter zip_nonempty zip)).
Proof.
  split.
  - intros path decoder content tar w Hread Hopen run. subst run.
    rewrite (upload_tar_opened E args path decoder content tar w Hread Hopen).
    intros Hret.
    assert (posted (log (when (verbose args) (print (L_uncompressing_tar path)) w).2)
            = posted (log w)
            ∧ COUNT_JSON (session (when (verbose args)
                                     (print (L_uncompressing_tar path)) w).2)
              = COUNT_JSON (session w)) as [Hp Hc].
    { destruct (verbose args); [|done]. cbn. by rewrite posted_snoc, app_nil_r. }
    rewrite <- Hp, <- Hc.
    apply (for_each_posts args isreg tar_data); [| |done].
    + intros item w0 Hreg. unfold upload_tar_item. rewrite Hreg.
      apply upload_item_posts.
    + intros item w0 Hreg. unfold upload_tar_item. by rewrite Hreg.
  - intros path content zip w Hread Hopen run. subst run.
    rewrite (upload_zip_opened E args path content zip w Hread Hopen).
    intros Hret.
    assert (posted (log (when (verbose args) (print (L_uncompressing_zip path)) w).2)
            = posted (log w)
            ∧ COUNT_JSON (session (when (verbose args)
                                     (print (L_uncompressing_zip path)) w).2)
              = COUNT_JSON (session w)) as [Hp Hc].
    { destruct (verbose args); [|done]. cbn. by rewrite posted_snoc, app_nil_r. }
    rewrite <- Hp, <- Hc.
    apply (for_each_posts args zip_nonempty zip_data); [| |done].
    + intros item w0 Hsize. unfold upload_zip_item.
      unfold zip_nonempty in Hsize. rewrite Hsize.
      apply upload_item_posts.
    + intros item w0 Hsize. unfold upload_zip_item.
      unfold zip_nonempty in Hsize. by rewrite Hsize.
Qed.

Lemma archive_members_posted_in_order_witness :
  posted (log (upload_tar Demo.env (Demo.quiet []) "study.tar" mode_r
                 Demo.empty_store).2)
    = posted (log Demo.empty_store)
      ++ not_json Demo.env (tar_data <$> List.filter isreg Demo.tar_entries)
  ∧ COUNT_JSON (session (upload_tar Demo.env (Demo.quiet []) "study.tar" mode_r
                           Demo.empty_store).2)
    = COUNT_JSON (session Demo.empty_store)
      + json_among Demo.env (tar_data <$> List.filter isreg Demo.tar_entries).
Proof.
  apply (proj1 (archive_members_posted_in_order Demo.env (Demo.quiet []))
           "study.tar" mode_r (Demo.b "TAR1") Demo.tar_entries Demo.empty_store);
    vm_compute; reflexivity.
Defined.

(** ** The run, continued *)

(** X12.  An argument that is neither a file nor a directory kills the run
    with an exception that names it.  The arguments before it have been
    imported by then; those after it are not looked at, and no summary is
    printed. *)
Theorem missing_path_aborts (E : Env) (args : Args)
    (before after : list string) (path : string) (w w1 : World E) :
  files args = before ++ path :: after →
  (when (clear args) (clear_orthanc E) ;;
   for_each before (import_path E args)) w = (Returned tt, w1) →
  isfile E path = false →
  isdir E path = false →
  main E args w = (Raised (MissingFileOrDirectory path), w1).
Proof.
  intros Hfiles Hbefore Hisfile Hisdir.
  unfold main. rewrite Hfiles. unfold bind in *.
  destruct (when (clear args) (clear_orthanc E) w) as [[[]|e0] w0]; [|done].
  rewrite for_each_app. unfold bind. rewrite Hbefore.
  cbn [for_each]. unfold bind. unfold import_path at 1.
  by rewrite Hisfile, Hisdir.
Qed.

Lemma missing_path_aborts_witness :
  main Demo.env (Demo.quiet ["good.dcm"; "nowhere"; "bare.dcm"]) Demo.empty_store
  = (Raised (MissingFileOrDirectory "nowhere"), Demo.good_file_imported).
Proof.
  apply (missing_path_aborts Demo.env
           (Demo.quiet ["good.dcm"; "nowhere"; "bare.dcm"])
           ["good.dcm"] ["bare.dcm"] "nowhere"
           Demo.empty_store Demo.good_file_imported);
    vm_compute; reflexivity.
Defined.

Lemma for_each_fmap {E A B} (f : A → B) (l : list A) (body : B → M E unit)
    (w : World E) :
  for_each (f <$> l) body w = for_each l (λ x, body (f x)) w.
Proof.
  revert w. induction l as [|x l IH]; intros w; cbn [for_each fmap list_fmap].
  - reflexivity.
  - unfold bind. destruct (body (f x) w) as [[[]|e] w1]; [apply IH | reflexivity].
Qed.

(** X13.  Importing a directory is importing the files [os.walk] finds
    under it, each joined to its root, one after the other in the order of
    the walk: each goes straight to [decode_file], and the first exception
    ends the walk. *)
Theorem directory_is_its_files (E : Env) (args : Args) (dir : string)
    (w : World E) :
  isfile E dir = false →
  isdir E dir = true →
  import_path E args dir w
  = for_each (files_under E dir) (decode_file E args) w.
Proof.
  intros Hisfile Hisdir. unfold import_path, files_under.
  rewrite Hisfile, Hisdir. generalize (walk E dir). intros roots. revert w.
  induction roots as [|[root names] roots IH]; intros w;
    cbn [for_each flat_map].
  - reflexivity.
  - rewrite for_each_app. unfold bind. rewrite for_each_fmap.
    destruct (for_each names (λ name, decode_file E args (path_join root name)) w)
      as [[[]|e] w1]; [apply IH | reflexivity].
Qed.

Lemma directory_is_its_files_witness :
  import_path Tree.env (Demo.quiet []) "inbox" Tree.empty_store
  = for_each (files_under Tree.env "inbox") (decode_file Tree.env (Demo.quiet []))
      Tree.empty_store.
Proof.
  apply (directory_is_its_files Tree.env (Demo.quiet []) "inbox" Tree.empty_store);
    vm_compute; reflexivity.
Defined.

Lemma print_summary_run (E : Env) (w : World E) :
  print_summary E w
  = (Returned tt,
     {| session := session w; server := server w;
        log := log w ++
          [EvPrint L_blank;
           EvPrint (if COUNT_ERROR (session w) =? 0 then L_success else L_warning);
           EvPrint (L_count_dicom (COUNT_DICOM (session w)));
           EvPrint (L_count_studies (size (IMPORTED_STUDIES (session w))));
           EvPrint (L_count_json (COUNT_JSON (session w)));
           EvPrint (L_count_error (COUNT_ERROR (session w)));
           EvPrint L_blank] |}).
Proof.
  unfold print_summary. unfold_monad. cbn.
  destruct (COUNT_ERROR (session w) =? 0); cbn; by rewrite <- !(assoc_L (++)).
Qed.

(** X14.  A run that returns has ended with the summary of its final
    globals: a blank line, [SUCCESS:] when the error counter is zero and
    [WARNING:] otherwise, the imported instances, the number of studies
    seen, the JSON files ignored, the errors, and a blank line. *)
Theorem summary_reports_the_final_globals (E : Env) (args : Args)
    (w w' : World E) :
  main E args w = (Returned tt, w') →
  ∃ before,
    log w' = before ++
      [EvPrint L_blank;
       EvPrint (if COUNT_ERROR (session w') =? 0 then L_success else L_warning);
       EvPrint (L_count_dicom (COUNT_DICOM (session w')));
       EvPrint (L_count_studies (size (IMPORTED_STUDIES (session w'))));
       EvPrint (L_count_json (COUNT_JSON (session w')));
       EvPrint (L_count_error (COUNT_ERROR (session w')));
       EvPrint L_blank].
Proof.
  unfold main, bind. intros Hrun.
  destruct (when (clear args) (clear_orthanc E) w) as [[[]|e0] w0]; [|done].
  destruct (for_each (files args) (import_path E args) w0) as [[[]|e1] w1];
    [|done].
  rewrite print_summary_run in Hrun. injection Hrun as <-.
  by exists (log w1).
Qed.

Lemma summary_reports_the_final_globals_witness :
  ∃ before,
    log (main Demo.env (Demo.quiet ["good.dcm"; "study.tar"]) Demo.empty_store).2
    = before ++
      [EvPrint L_blank;
       EvPrint (if COUNT_ERROR (session (main Demo.env
                  (Demo.quiet ["good.dcm"; "study.tar"]) Demo.empty_store).2) =? 0
                then L_success else L_warning);
       EvPrint (L_count_dicom (COUNT_DICOM (session (main Demo.env
                  (Demo.quiet ["good.dcm"; "study.tar"]) Demo.empty_store).2)));
       EvPrint (L_count_studies (size (IMPORTED_STUDIES (session (main Demo.env
                  (Demo.quiet ["good.dcm"; "study.tar"]) Demo.empty_store).2))));
       EvPrint (L_count_json (COUNT_JSON (session (main Demo.env
                  (Demo.quiet ["good.dcm"; "study.tar"]) Demo.empty_store).2)));
       EvPrint (L_count_error (COUNT_ERROR (session (main Demo.env
                  (Demo.quiet ["good.dcm"; "study.tar"]) Demo.empty_store).2)));
       EvPrint L_blank].
Proof.
  apply (summary_reports_the_final_globals Demo.env
           (Demo.quiet ["good.dcm"; "study.tar"]) Demo.empty_store).
  vm_compute. reflexivity.
Defined.

(** ** Clearing the store *)

Lemma delete_loop_run (E : Env) (studies : list string) (w w' : World E) :
  for_each studies (λ study,
    ok <- request (EvDelete study) (λ srv, delete_study E srv study) ;;
    if ok : bool then ret tt else raise HTTPError) w = (Returned tt, w') →
  session w' = session w ∧ log w' = log w ++ (EvDelete <$> studies).
Proof.
  revert w. induction studies as [|study studies IH]; intros w;
    cbn [for_each fmap list_fmap].
  - intros [= <-]. by rewrite app_nil_r.
  - unfold bind at 1. unfold bind at 1. unfold request.
    destruct (delete_study E (server w) study) as [[] srv1]; cbn [ret raise];
      [|done].
    intros Hrest. destruct (IH _ Hrest) as [Hs Hl]. cbn in Hs, Hl.
    split; [done|]. rewrite Hl. by rewrite <- (assoc_L (++)).
Qed.

(** X15.  When [--clear] comes to its end, the script has listed the
    studies once and sent one DELETE for each listed study, in the order
    of the listing, between the lines that announce and confirm it; the
    globals are untouched. *)
Theorem clear_deletes_what_is_listed (E : Env) (w w' : World E)
    (r : Response) (srv1 : Server E) :
  get_studies E (server w) = (r, srv1) →
  clear_orthanc E w = (Returned tt, w') →
  ∃ listing,
    status_ok r = true
    ∧ json_body r = Some listing
    ∧ session w' = session w
    ∧ log w' = log w ++
        [EvPrint L_removing_content; EvGetStudies;
         EvPrint (L_studies_being_removed (length (json_items listing)))]
        ++ (EvDelete <$> json_items listing)
        ++ [EvPrint L_now_empty; EvPrint L_blank].
Proof.
  intros Hlist. unfold clear_orthanc.
  unfold bind at 1. cbn [print emit].
  unfold bind at 1. unfold request. cbn [server]. rewrite Hlist.
  unfold bind at 1. unfold raise_for_status.
  destruct (status_ok r); cbn [ret raise]; [|done].
  unfold bind at 1. unfold response_json.
  destruct (json_body r) as [listing|]; cbn [or_raise ret raise]; [|done].
  unfold bind at 1. cbn [print emit].
  unfold bind at 1.
  match goal with
  | |- context [for_each ?l ?body ?w0] =>
      destruct (for_each l body w0) as [[[]|e] w2] eqn:Hloop; [|done]
  end.
  apply delete_loop_run in Hloop as [Hs Hl]. cbn in Hs, Hl.
  unfold bind. cbn [print emit]. intros [= <-].
  exists listing. split_and!; [done..|]. cbn [log].
  rewrite Hl. by rewrite <- !(assoc_L (++)).
Qed.

Lemma clear_deletes_what_is_listed_witness :
  ∃ listing,
    status_ok (Demo.orthanc_studies (server Demo.two_studies_stored)).1 = true
    ∧ json_body (Demo.orthanc_studies (server Demo.two_studies_stored)).1
      = Some listing
    ∧ session (clear_orthanc Demo.env Demo.two_studies_stored).2
      = session Demo.two_studies_stored
    ∧ log (clear_orthanc Demo.env Demo.two_studies_stored).2
      = log Demo.two_studies_stored ++
        [EvPrint L_removing_content; EvGetStudies;
         EvPrint (L_studies_being_removed (length (json_items listing)))]
        ++ (EvDelete <$> json_items listing)
        ++ [EvPrint L_now_empty; EvPrint L_blank].
Proof.
  apply (clear_deletes_what_is_listed Demo.env Demo.two_studies_stored
           (clear_orthanc Demo.env Demo.two_studies_stored).2
           (Demo.orthanc_studies (server Demo.two_studies_stored)).1
           (Demo.orthanc_studies (server Demo.two_studies_stored)).2);
    vm_compute; reflexivity.
Defined.

(** X16.  When the store refuses to list its studies, [--clear] kills the
    run there: nothing is deleted, nothing is imported and no summary is
    printed. *)
Theorem failed_listing_aborts (E : Env) (args : Args) (w : World E)
    (r : Response) (srv1 : Server E) :
  clear args = true →
  get_studies E (server w) = (r, srv1) →
  status_ok r = false →
  main E args w
  = (Raised HTTPError,
     {| session := session w; server := srv1;
        log := log w ++ [EvPrint L_removing_content; EvGetStudies] |}).
Proof.
  intros Hclear Hlist Hfail. unfold main. rewrite Hclear.
  unfold bind at 1. cbn [when]. unfold clear_orthanc.
  unfold bind at 1. cbn [print emit].
  unfold bind at 1. unfold request. cbn [server]. rewrite Hlist.
  unfold bind at 1. unfold raise_for_status. rewrite Hfail. cbn [raise].
  cbn [session log]. by rewrite <- (assoc_L (++)).
Qed.

Lemma failed_listing_aborts_witness :
  main Scripted.env (Demo.clearing false) (Scripted.start [])
  = (Raised HTTPError,
     {| session := session (Scripted.start []); server := [];
        log := log (Scripted.start [])
               ++ [EvPrint L_removing_content; EvGetStudies] |}).
Proof.
  apply (failed_listing_aborts Scripted.env (Demo.clearing false)
           (Scripted.start []) Scripted.unavailable []);
    vm_compute; reflexivity.
Defined.

(** ** What [--verbose] changes *)

Section Console.
Context {E : Env}.

Lemma same_but_console_refl (w : World E) : same_but_console w w.
Proof. by split_and!. Qed.

Lemma console_only_ret {A} (a : A) : console_only (E := E) (ret a) (ret a).
Proof. by intros w w' Hw. Qed.

Lemma console_only_raise {A} (e : exn) :
  console_only (E := E) (A := A) (raise e) (raise e).
Proof. by intros w w' Hw. Qed.

Lemma console_only_bind {A B} (m m' : M E A) (k k' : A → M E B) :
  console_only m m' → (∀ a, console_only (k a) (k' a)) →
  console_only (bind m k) (bind m' k').
Proof.
  intros Hm Hk w w' Hw. destruct (Hm w w' Hw) as [Hout Hworld]. unfold bind.
  destruct (m w) as [[a|e] w1], (m' w') as [[a'|e'] w1'];
    cbn [fst snd] in *; simplify_eq; [by apply Hk | done].
Qed.

Lemma console_only_for_each {A} (l : list A) (body body' : A → M E unit) :
  (∀ x, console_only (body x) (body' x)) →
  console_only (for_each l body) (for_each l body').
Proof.
  intros Hbody. induction l as [|x l IH]; cbn [for_each].
  - apply console_only_ret.
  - apply console_only_bind; [apply Hbody | intros _; apply IH].
Qed.

Lemma console_only_when_print (cond cond' : bool) (l l' : line) :
  console_only (E := E) (when cond (print l)) (when cond' (print l')).
Proof.
  intros w w' (Hs & Hsrv & Hreq).
  destruct cond, cond'; cbn; unfold same_but_console; cbn;
    rewrite ?requests_snoc; cbn; rewrite ?app_nil_r; done.
Qed.

Lemma console_only_print (l : line) : console_only (E := E) (print l) (print l).
Proof. apply (console_only_when_print true true). Qed.

Lemma console_only_request {A} (ev : event) (f : Server E → A * Server E) :
  console_only (request ev f) (request ev f).
Proof.
  intros w w' (Hs & Hsrv & Hreq). unfold request. rewrite Hsrv.
  destruct (f (server w')) as [a s']. cbn. unfold same_but_console. cbn.
  rewrite !requests_snoc, Hreq, Hs. done.
Qed.

Lemma console_only_modify_session (f : Session → Session) :
  console_only (E := E) (modify_session f) (modify_session f).
Proof.
  intros w w' (Hs & Hsrv & Hreq). cbn. unfold same_but_console. cbn.
  by rewrite Hs.
Qed.

Lemma console_only_get_session : console_only (E := E) get_session get_session.
Proof. intros w w' (Hs & Hsrv & Hreq). cbn. by rewrite Hs. Qed.

Lemma console_only_or_raise {A} (o : option A) (e : exn) :
  console_only (E := E) (or_raise o e) (or_raise o e).
Proof. destruct o; [apply console_only_ret | apply console_only_raise]. Qed.

Lemma console_only_raise_for_status (response : Response) :
  console_only (raise_for_status E response) (raise_for_status E response).
Proof.
  unfold raise_for_status.
  destruct (status_ok response); [apply console_only_ret | apply console_only_raise].
Qed.

Lemma console_only_tag_or_empty (tags : json) (key : string) :
  console_only (E := E) (tag_or_empty tags key) (tag_or_empty tags key).
Proof.
  unfold tag_or_empty.
  repeat case_match; first [apply console_only_ret | apply console_only_raise].
Qed.

End Console.

Ltac console_steps :=
  repeat first
    [ apply console_only_ret
    | apply console_only_raise
    | apply console_only_when_print
    | apply console_only_print
    | apply console_only_request
    | apply console_only_modify_session
    | apply console_only_get_session
    | apply console_only_or_raise
    | apply console_only_raise_for_status
    | apply console_only_tag_or_empty
    | apply console_only_for_each; intros ?
    | apply console_only_bind; [|intros ?]
    | progress unfold open_rb, response_json, getitem
    | case_match ].

Section Verbose.
Context (E : Env) (args args' : Args).
Hypothesis same_ignore_errors : ignore_errors args = ignore_errors args'.

Lemma upload_buffer_console (dicom : bytes) :
  console_only (upload_buffer E args dicom) (upload_buffer E args' dicom).
Proof.
  unfold upload_buffer. rewrite same_ignore_errors. console_steps.
Qed.

Lemma decode_file_console (path : string) :
  console_only (decode_file E args path) (decode_file E args' path).
Proof.
  unfold decode_file, upload_tar, upload_zip, upload_bzip2, upload_gzip,
    upload_file, upload_tar_item, upload_zip_item, validate_dicom_tags.
  repeat case_match;
    repeat first [ apply upload_buffer_console | console_steps ].
Qed.

Lemma import_path_console (path : string) :
  console_only (import_path E args path) (import_path E args' path).
Proof.
  unfold import_path.
  repeat first [ apply decode_file_console | console_steps ].
Qed.

Lemma clear_orthanc_console : console_only (clear_orthanc E) (clear_orthanc E).
Proof. unfold clear_orthanc. console_steps. Qed.

End Verbose.

(** X17.  [--verbose] shows in the console only, printing being taken to
    succeed.  Two runs from the same world whose command lines name the
    same store, files, [--clear] and [--ignore-errors], and so differ in
    [--verbose] and [--force] at most, end the same way, with the same
    globals, the same server and the same requests in the same order. *)
Theorem verbose_shows_in_console_only (E : Env) (args args' : Args)
    (w : World E) :
  url args = url args' →
  clear args = clear args' →
  ignore_errors args = ignore_errors args' →
  files args = files args' →
  (main E args w).1 = (main E args' w).1
  ∧ same_but_console (main E args w).2 (main E args' w).2.
Proof.
  intros _ Hclear Hignore Hfiles.
  assert (console_only (main E args) (main E args')) as Hmain.
  { unfold main. rewrite Hclear, Hfiles.
    apply console_only_bind; [|intros ?; apply console_only_bind; [|intros ?]].
    - destruct (clear args'); cbn [when];
        [apply clear_orthanc_console | apply console_only_ret].
    - apply console_only_for_each. intros path. by apply import_path_console.
    - unfold print_summary. console_steps. }
  apply Hmain, same_but_console_refl.
Qed.

Lemma verbose_shows_in_console_only_witness :
  (main Demo.env (Demo.quiet ["good.dcm"; "study.tar"]) Demo.empty_store).1
  = (main Demo.env
       {| url := "http://localhost:8042"; force := false; clear := false;
          verbose := true; ignore_errors := false;
          files := ["good.dcm"; "study.tar"] |} Demo.empty_store).1
  ∧ same_but_console
      (main Demo.env (Demo.quiet ["good.dcm"; "study.tar"]) Demo.empty_store).2
      (main Demo.env
         {| url := "http://localhost:8042"; force := false; clear := false;
            verbose := true; ignore_errors := false;
            files := ["good.dcm"; "study.tar"] |} Demo.empty_store).2.
Proof.
  apply (verbose_shows_in_console_only Demo.env
           (Demo.quiet ["good.dcm"; "study.tar"])
           {| url := "http://localhost:8042"; force := false; clear := false;
              verbose := true; ignore_errors := false;
              files := ["good.dcm"; "study.tar"] |} Demo.empty_store);
    reflexivity.
Defined.

(** ** Names that end in [.tar.gz] and [.tar.bz2] *)

Lemma string_length_app (s t : string) :
  String.length (s +:+ t) = String.length s + String.length t.
Proof. induction s as [|c s IH]; simpl; [done | by rewrite IH]. Qed.

Lemma substring_whole (t : string) :
  String.substring 0 (String.length t) t = t.
Proof. induction t as [|c t IH]; simpl; [done | by rewrite IH]. Qed.

Lemma substring_past (s t : string) (k : nat) :
  String.substring (String.length s) k (s +:+ t) = String.substring 0 k t.
Proof. induction s as [|c s IH]; simpl; [done | apply IH]. Qed.

Lemma endswith_app (s suffix : string) : endswith (s +:+ suffix) suffix = true.
Proof.
  unfold endswith. rewrite string_length_app.
  replace (String.length s + String.length suffix - String.length suffix)
    with (String.length s) by lia.
  rewrite substring_past, substring_whole, String.eqb_refl.
  rewrite andb_true_r. apply Nat.leb_le. lia.
Qed.

Lemma substring_cut (s : string) (m : nat) :
  m ≤ String.length s →
  s = String.substring 0 m s +:+ String.substring m (String.length s - m) s.
Proof.
  revert m. induction s as [|c s IH]; intros m Hm.
  - destruct m; [done | simpl in Hm; lia].
  - destruct m as [|m].
    + simpl. by rewrite substring_whole.
    + simpl in Hm. specialize (IH m ltac:(lia)).
      change (String c s
              = String c (String.substring 0 m s
                          +:+ String.substring m (String.length s - m) s)).
      by f_equal.
Qed.

Lemma endswith_inv (s suffix : string) :
  endswith s suffix = true → ∃ before, s = before +:+ suffix.
Proof.
  unfold endswith. intros [Hle Heq]%andb_true_iff.
  apply Nat.leb_le in Hle. apply String.eqb_eq in Heq.
  exists (String.substring 0 (String.length s - String.length suffix) s).
  pose proof (substring_cut s (String.length s - String.length suffix)
                ltac:(lia)) as Hcut.
  replace (String.length s - (String.length s - String.length suffix))
    with (String.length suffix) in Hcut by lia.
  by rewrite Heq in Hcut.
Qed.

Lemma last_char_app (s t : string) (c : ascii) :
  last_char t = Some c → last_char (s +:+ t) = Some c.
Proof.
  intros Ht. induction s as [|a s IH]; simpl; [done | by rewrite IH].
Qed.

(** X18.  A name that ends in [.tar.gz] or [.tar.bz2] is read as a
    compressed tar archive, whatever comes before the suffix: the test for
    the double suffix comes first, so the name never reaches the
    single-stream strategies. *)
Theorem compressed_tar_names (E : Env) (args : Args) (stem : string)
    (w : World E) :
  decode_file E args (stem +:+ ".tar.gz") w
    = upload_tar E args (stem +:+ ".tar.gz") mode_r_gz w
  ∧ decode_file E args (stem +:+ ".tar.bz2") w
    = upload_tar E args (stem +:+ ".tar.bz2") mode_r_bz2 w.
Proof.
  unfold decode_file. split.
  - destruct (endswith (stem +:+ ".tar.gz") ".tar.bz2") eqn:Hbz.
    + apply endswith_inv in Hbz as [before Hbz].
      pose proof (last_char_app stem ".tar.gz" "z" eq_refl) as Hz.
      rewrite Hbz in Hz.
      by rewrite (last_char_app before ".tar.bz2" "2" eq_refl) in Hz.
    + by rewrite endswith_app.
  - by rewrite endswith_app.
Qed.
